(** * RSS_Feeds: the news-store merge and the RSS digest, embedded in Rocq

    A shallow embedding of [newsdata_client.py] and of the deduplication and
    summarisation steps of [rss_openai_digest.py], with the properties of
    the ingestion / dedupe merge proved over it.

    Conventions of the embedding.
    - A Python [str] is a [string] holding its UTF-8 encoding.
    - A decoded JSON document is a [json] value; a Python [dict] keeps its
      insertion order and is an association list read at the first binding
      of a key.
    - A Python exception is a value of [exn]; code that can raise returns a
      [result].
    - What the standard library does behind [repr], [json.loads],
      [json.dumps], [hashlib.sha1] and the HTML helpers is taken as given:
      each is a variable of the section that uses it.
    - The network, the clock, the credentials and the output file are the
      fields of an [environment] a run is given. *)

From Stdlib Require Import ZArith Ascii String List.
From stdpp Require Import base decidable option list strings pretty gmap.

Local Open Scope string_scope.
Local Open Scope Z_scope.
Local Open Scope list_scope.
Local Set Warnings "-register-all".

(** ** Python values and exceptions *)

Module Py.

(** Decoded JSON, as [json.loads] and [json.load] produce it.  A [float] is
    carried by its [repr] text, which is what [str] returns for it and which
    determines it. *)
Inductive json : Type :=
| JNull
| JBool (b : bool)
| JInt (n : Z)
| JFloat (repr : string)
| JStr (s : string)
| JList (l : list json)
| JDict (d : list (string * json)).

Abbreviation dict := (list (string * json)).

(** The exceptions the modelled code can raise.  [SystemExit code msg] is
    [sys.exit(code)] reached after [msg] was printed on standard error. *)
Inductive exn : Type :=
| AttributeError
| TypeError
| KeyError (key : string)
| UnicodeDecodeError
| RuntimeError (msg : string)
| SystemExit (code : Z) (msg : string).

Inductive result (A : Type) : Type :=
| Ok (a : A)
| Raise (e : exn).
Arguments Ok {A} a.
Arguments Raise {A} e.

#[global] Instance result_ret : MRet result := fun A a => Ok a.
#[global] Instance result_bind : MBind result := fun A B f m =>
  match m with
  | Ok a => f a
  | Raise e => Raise e
  end.

Definition is_ok {A} (r : result A) : Prop := exists a, r = Ok a.

(** A [for] loop whose body may raise, threading the loop state. *)
Fixpoint for_each {S A : Type} (body : S -> A -> result S) (st : S) (xs : list A)
  : result S :=
  match xs with
  | [] => Ok st
  | x :: xs' => st' ← body st x; for_each body st' xs'
  end.

(** *** Strings *)

Definition byte_in (lo hi : N) (a : ascii) : bool :=
  let n := N_of_ascii a in ((lo <=? n) && (n <=? hi))%N.

(** [str.isspace] on the code points that fit one byte: U+0009..U+000D,
    U+001C..U+001F and U+0020. *)
Definition is_space1 (a : ascii) : bool :=
  byte_in 9 13 a || byte_in 28 32 a.

(** U+0085 and U+00A0. *)
Definition is_space2 (a b : ascii) : bool :=
  (N_of_ascii a =? 194)%N && ((N_of_ascii b =? 133)%N || (N_of_ascii b =? 160)%N).

(** U+1680, U+2000..U+200A, U+2028, U+2029, U+202F, U+205F and U+3000. *)
Definition is_space3 (a b c : ascii) : bool :=
  let x := N_of_ascii a in
  let y := N_of_ascii b in
  let z := N_of_ascii c in
  ((x =? 225) && (y =? 154) && (z =? 128)
   || (x =? 226) && (y =? 128)
      && (byte_in 128 138 c || (z =? 168) || (z =? 169) || (z =? 175))
   || (x =? 226) && (y =? 129) && (z =? 159)
   || (x =? 227) && (y =? 128) && (z =? 128))%N.

(** The code points of a string, each as a string of its own: a lead byte
    with the continuation bytes (10xxxxxx) that follow it. *)
Fixpoint code_points_go (s : string) : string * list string :=
  match s with
  | EmptyString => (EmptyString, [])
  | String a r =>
      let '(pending, acc) := code_points_go r in
      if byte_in 128 191 a then (String a pending, acc)
      else (EmptyString, String a pending :: acc)
  end.

Definition code_points (s : string) : list string :=
  let '(pending, acc) := code_points_go s in
  if decide (pending = "") then acc else pending :: acc.

(** [str.isspace] of one code point. *)
Definition is_space (cp : string) : bool :=
  match cp with
  | String a EmptyString => is_space1 a
  | String a (String b EmptyString) => is_space2 a b
  | String a (String b (String c EmptyString)) => is_space3 a b c
  | _ => false
  end.

Fixpoint drop_while {A : Type} (p : A -> bool) (l : list A) : list A :=
  match l with
  | [] => []
  | x :: l' => if p x then drop_while p l' else l
  end.

Definition of_code_points (cps : list string) : string := String.concat "" cps.

(** [s.strip()] *)
Definition py_strip (s : string) : string :=
  of_code_points
    (rev (drop_while is_space (rev (drop_while is_space (code_points s))))).

(** [s.split()]: the maximal runs of code points that are not white space. *)
Fixpoint split_go (cur : string) (cps : list string) : list string :=
  match cps with
  | [] => if decide (cur = "") then [] else [cur]
  | cp :: cps' =>
      if is_space cp
      then (if decide (cur = "") then [] else [cur]) ++ split_go "" cps'
      else split_go (cur +:+ cp) cps'
  end.

Definition py_split (s : string) : list string := split_go "" (code_points s).

(** [len(s)] *)
Definition str_len (s : string) : Z := Z.of_nat (length (code_points s)).

(** [l[:n]], for a list and for a string; a negative [n] counts from the
    end. *)
Definition py_take {A : Type} (n : Z) (l : list A) : list A :=
  if 0 <=? n then take (Z.to_nat n) l
  else take (length l - Z.to_nat (- n)) l.

Definition str_take (n : Z) (s : string) : string :=
  of_code_points (py_take n (code_points s)).

(** *** Truth value, [or], [str] *)

Definition py_truthy (v : json) : bool :=
  match v with
  | JNull => false
  | JBool b => b
  | JInt n => negb (n =? 0)
  | JFloat r => negb (bool_decide (r = "0.0") || bool_decide (r = "-0.0"))
  | JStr s => negb (bool_decide (s = ""))
  | JList l => match l with [] => false | _ => true end
  | JDict d => match d with [] => false | _ => true end
  end.

(** [a or b] *)
Definition py_or (a b : json) : json := if py_truthy a then a else b.

Section Repr.
(** [repr] of a [str] quotes and escapes it by the Unicode character
    database; it is taken as given. *)
Variable repr_str : string -> string.

Fixpoint py_repr (v : json) : string :=
  match v with
  | JNull => "None"
  | JBool true => "True"
  | JBool false => "False"
  | JInt n => pretty n
  | JFloat r => r
  | JStr s => repr_str s
  | JList l => "[" +:+ String.concat ", " (map py_repr l) +:+ "]"
  | JDict d =>
      "{" +:+ String.concat ", "
                (map (fun '(k, x) => repr_str k +:+ ": " +:+ py_repr x) d)
          +:+ "}"
  end.

(** [str(v)] *)
Definition py_str (v : json) : string :=
  match v with
  | JStr s => s
  | _ => py_repr v
  end.
End Repr.

(** [repr] of a [str] of printable ASCII with no quote and no backslash in
    it; the examples below use it. *)
Definition repr_ascii (s : string) : string := "'" +:+ s +:+ "'".

(** *** Dictionaries *)

Fixpoint dict_lookup (k : string) (d : dict) : option json :=
  match d with
  | [] => None
  | (k', v) :: d' => if decide (k' = k) then Some v else dict_lookup k d'
  end.

(** [d[k] = v]: an existing key keeps its position. *)
Fixpoint dict_set (k : string) (v : json) (d : dict) : dict :=
  match d with
  | [] => [(k, v)]
  | (k', v') :: d' =>
      if decide (k' = k) then (k, v) :: d' else (k', v') :: dict_set k v d'
  end.

(** [d.get(k, dflt)] *)
Definition dict_get (k : string) (dflt : json) (d : dict) : json :=
  default dflt (dict_lookup k d).

(** [d.setdefault(k, dflt)], as the updated dictionary. *)
Definition dict_setdefault (k : string) (dflt : json) (d : dict) : dict :=
  match dict_lookup k d with
  | Some _ => d
  | None => d ++ [(k, dflt)]
  end.

(** [v.get(k)]: only a [dict] has the method. *)
Definition py_get (v : json) (k : string) : result json :=
  match v with
  | JDict d => Ok (dict_get k JNull d)
  | _ => Raise AttributeError
  end.

(** [v[k] = x] for a string [k]. *)
Definition py_setitem (v : json) (k : string) (x : json) : result json :=
  match v with
  | JDict d => Ok (JDict (dict_set k x d))
  | _ => Raise TypeError
  end.

(** [v.append(x)]: only a [list] has the method. *)
Definition py_append (v : json) (x : json) : result json :=
  match v with
  | JList l => Ok (JList (l ++ [x]))
  | _ => Raise AttributeError
  end.

(** [v == s] for a string [s]. *)
Definition py_eq_str (v : json) (s : string) : bool :=
  match v with
  | JStr s' => bool_decide (s' = s)
  | _ => false
  end.

(** The elements a [for] loop over [v] visits. *)
Definition py_iter (v : json) : result (list json) :=
  match v with
  | JList l => Ok l
  | JDict d => Ok (map (fun kv => JStr kv.1) d)
  | JStr s => Ok (map JStr (code_points s))
  | _ => Raise TypeError
  end.

(** [len(v)] *)
Definition py_len (v : json) : result Z :=
  match v with
  | JList l => Ok (Z.of_nat (length l))
  | JDict d => Ok (Z.of_nat (length d))
  | JStr s => Ok (str_len s)
  | _ => Raise TypeError
  end.

Definition is_record (v : json) : Prop :=
  match v with JDict _ => True | _ => False end.

(** An optional command-line string: [None] when the flag is not given. *)
Definition opt_str (o : option string) : json :=
  match o with
  | Some s => JStr s
  | None => JNull
  end.

End Py.

(** ** [newsdata_client.py] *)

Module NewsdataClient.
Import Py.

(** The parsed command line. *)
Record args : Type := {
  query : option string;
  category : string;
  country : string;
  language : string;
  size : Z;
  page : option string;
  output : string;
}.

(** What [open(path)] finds at the output path. *)
Inductive file_state : Type :=
| Missing                  (* [os.path.exists] is false *)
| Unreadable               (* opening or reading raises [OSError] *)
| Undecodable              (* the bytes are not UTF-8 *)
| Content (text : string).

(** The state of one pass over the fetched results: the store, the keys
    seen so far and the two counters. *)
Record merge_state : Type := {
  dump : dict;
  existing_keys : gset string;
  added : Z;
  skipped : Z;
}.

(** The store [load_dump] starts from when there is nothing to read. *)
Definition empty_dump : dict :=
  [("schema_version", JStr "1.0"); ("updated_at", JNull);
   ("articles", JList []); ("requests", JList [])].

Definition is_list (v : json) : bool :=
  match v with JList _ => true | _ => false end.

Section Client.
(** [repr] of a [str], as in [py_repr]. *)
Variable repr_str : string -> string.
(** [json.loads]; [None] is [json.JSONDecodeError]. *)
Variable json_loads : string -> option json.
(** [json.dumps(_, indent=2, ensure_ascii=True)] *)
Variable json_dumps : json -> string.

Definition load_dump (path : string) (f : file_state) : result dict :=
  match f with
  | Missing => Ok empty_dump
  | Unreadable => Raise (SystemExit 1 ("Failed to read or parse " +:+ path))
  | Undecodable => Raise UnicodeDecodeError
  | Content text =>
      let content := py_strip text in
      if decide (content = "") then Ok empty_dump
      else
        match json_loads content with
        | None => Raise (SystemExit 1 ("Failed to read or parse " +:+ path))
        | Some (JList data) =>
            Ok [("schema_version", JStr "1.0"); ("updated_at", JNull);
                ("articles", JList data); ("requests", JList [])]
        | Some (JDict data) =>
            let data := dict_setdefault "schema_version" (JStr "1.0") data in
            let data := dict_setdefault "updated_at" JNull data in
            let data := dict_setdefault "articles" (JList []) data in
            let data := dict_setdefault "requests" (JList []) data in
            let data :=
              if is_list (dict_get "articles" JNull data) then data
              else dict_set "articles" (JList []) data in
            let data :=
              if is_list (dict_get "requests" JNull data) then data
              else dict_set "requests" (JList []) data in
            Ok data
        | Some _ => Raise (SystemExit 1 ("Unexpected JSON format in " +:+ path))
        end
  end.

Definition save_dump (data : dict) : file_state :=
  Content (json_dumps (JDict data) +:+ "
").

(** The field of an item as the key sees it: [str(v or "").strip()]. *)
Definition field_text (v : json) : string :=
  py_strip (py_str repr_str (py_or v (JStr ""))).

Definition article_key (item : json) : result string :=
  v ← py_get item "article_id";
  let article_id := field_text v in
  if negb (bool_decide (article_id = "")) then Ok ("id:" +:+ article_id)
  else
    v ← py_get item "link";
    let link := field_text v in
    if negb (bool_decide (link = "")) then Ok ("link:" +:+ link)
    else
      v ← py_get item "title";
      let title := field_text v in
      v1 ← py_get item "pubDate";
      v2 ← (if py_truthy v1 then Ok v1 else py_get item "published_at");
      let pub_date := field_text v2 in
      v1 ← py_get item "source_id";
      v2 ← (if py_truthy v1 then Ok v1 else py_get item "source_name");
      let source := field_text v2 in
      Ok ("fallback:" +:+ title +:+ "|" +:+ pub_date +:+ "|" +:+ source).

Definition query_params (a : args) : json :=
  JDict [("query", opt_str (query a)); ("category", JStr (category a));
         ("country", JStr (country a)); ("language", JStr (language a));
         ("size", JInt (size a)); ("page", opt_str (page a))].

(** Lines 180-182 of [main]: the keys of the records already stored. *)
Definition seed_keys (articles : list json) : result (gset string) :=
  for_each (fun keys item => key ← article_key item; Ok ({[key]} ∪ keys))
           ∅ articles.

(** The body of the loop over the fetched results. *)
Definition merge_step (a : args) (fetched_at : string)
    (st : merge_state) (item : json) : result merge_state :=
  key ← article_key item;
  if decide (key ∈ existing_keys st) then
    Ok {| dump := dump st; existing_keys := existing_keys st;
          added := added st; skipped := skipped st + 1 |}
  else
    item ← py_setitem item "fetched_at" (JStr fetched_at);
    item ← py_setitem item "query_params" (query_params a);
    articles ← match dict_lookup "articles" (dump st) with
               | Some v => py_append v item
               | None => Raise (KeyError "articles")
               end;
    Ok {| dump := dict_set "articles" articles (dump st);
          existing_keys := {[key]} ∪ existing_keys st;
          added := added st + 1; skipped := skipped st |}.

(** The request-audit record of one run. *)
Definition request_record (a : args) (response : dict) (fetched_at : string)
    (results_count n_added n_skipped : Z) : json :=
  JDict [("fetched_at", JStr fetched_at);
         ("params", query_params a);
         ("status", dict_get "status" JNull response);
         ("total_results", dict_get "totalResults" JNull response);
         ("results_count", JInt results_count);
         ("next_page", dict_get "nextPage" JNull response);
         ("added", JInt n_added);
         ("skipped", JInt n_skipped)].

(** Lines 180-225 of [main]: merge the fetched [results] into the loaded
    store and log the request.  Returns the store and the two counters. *)
Definition merge (a : args) (response : dict) (results : json)
    (fetched_at : string) (d : dict) : result (dict * Z * Z) :=
  articles ← py_iter (dict_get "articles" (JList []) d);
  keys ← seed_keys articles;
  items ← py_iter results;
  st ← for_each (merge_step a fetched_at)
         {| dump := d; existing_keys := keys; added := 0; skipped := 0 |} items;
  let d := dict_set "updated_at" (JStr fetched_at) (dump st) in
  let d := dict_setdefault "requests" (JList []) d in
  results_count ← py_len results;
  requests ← py_append (dict_get "requests" JNull d)
               (request_record a response fetched_at results_count
                  (added st) (skipped st));
  Ok (dict_set "requests" requests d, added st, skipped st).

(** *** Vocabulary of the properties *)

(** The normalised fields the key is built from. *)
Definition external_id (d : dict) : string :=
  field_text (dict_get "article_id" JNull d).
Definition link_text (d : dict) : string :=
  field_text (dict_get "link" JNull d).
Definition title_text (d : dict) : string :=
  field_text (dict_get "title" JNull d).
Definition pub_date_text (d : dict) : string :=
  field_text (py_or (dict_get "pubDate" JNull d) (dict_get "published_at" JNull d)).
Definition source_text (d : dict) : string :=
  field_text (py_or (dict_get "source_id" JNull d) (dict_get "source_name" JNull d)).

(** The fields [article_key] reads. *)
Definition key_fields : list string :=
  ["article_id"; "link"; "title"; "pubDate"; "published_at"; "source_id";
   "source_name"].

(** The rule of [article_key] that produces the key of a record. *)
Inductive tier : Type := ById | ByLink | ByFallback.

Definition key_tier (d : dict) : tier :=
  if negb (bool_decide (external_id d = "")) then ById
  else if negb (bool_decide (link_text d = "")) then ByLink
  else ByFallback.

(** The key [article_key] returns on a record. *)
Definition record_key (d : dict) : string :=
  match key_tier d with
  | ById => "id:" +:+ external_id d
  | ByLink => "link:" +:+ link_text d
  | ByFallback =>
      "fallback:" +:+ title_text d +:+ "|" +:+ pub_date_text d +:+ "|"
        +:+ source_text d
  end.

(** A fetched record as the store keeps it. *)
Definition stamped (a : args) (fetched_at : string) (d : dict) : dict :=
  dict_set "query_params" (query_params a)
    (dict_set "fetched_at" (JStr fetched_at) d).

(** The fetched records whose key was not seen before them, in order. *)
Fixpoint unseen (keys : gset string) (items : list dict) : list dict :=
  match items with
  | [] => []
  | it :: items' =>
      if decide (record_key it ∈ keys) then unseen keys items'
      else it :: unseen ({[record_key it]} ∪ keys) items'
  end.

Definition articles_of (d : dict) : list json :=
  match dict_lookup "articles" d with
  | Some (JList l) => l
  | _ => []
  end.

Definition requests_of (d : dict) : list json :=
  match dict_lookup "requests" d with
  | Some (JList l) => l
  | _ => []
  end.

(** A store as [load_dump] returns it: both sequences are lists. *)
Definition loaded_store (d : dict) : Prop :=
  (exists l, dict_lookup "articles" d = Some (JList l))
  /\ (exists l, dict_lookup "requests" d = Some (JList l)).

(** No two positions of [l] hold records with the same key. *)
Definition unique_keys (l : list json) : Prop :=
  forall (i j : nat) (x y : json) (k : string),
    l !! i = Some x -> l !! j = Some y ->
    article_key x = Ok k -> article_key y = Ok k -> i = j.

(** The keys of the records of [l]. *)
Fixpoint key_set (l : list json) : gset string :=
  match l with
  | [] => ∅
  | x :: l' =>
      match article_key x with
      | Ok k => {[k]} ∪ key_set l'
      | Raise _ => key_set l'
      end
  end.

(** What a run finds around it: the credential, the clock, the news API and
    the output file. *)
Record environment : Type := {
  env_api_key : option string;
  env_now : string;
  env_fetch : list (string * string) -> string + json;
  env_file : file_state;
}.

Definition request_params (a : args) (api_key : string) : list (string * string) :=
  [("apikey", api_key); ("category", category a); ("country", country a);
   ("language", language a); ("size", pretty (size a))]
  ++ match query a with
     | Some q => if decide (q = "") then [] else [("q", q)]
     | None => []
     end
  ++ match page a with
     | Some p => if decide (p = "") then [] else [("page", p)]
     | None => []
     end.

(** [main], up to the write: the line printed and the file written.  A
    response that is no object has no [get]. *)
Definition main_run (a : args) (w : environment) : result (string * file_state) :=
  let api_key := default "" (env_api_key w) in
  if decide (api_key = "") then
    Raise (SystemExit 1
      "Missing NEWSDATA_API_KEY. Set it in the environment or a .env file.")
  else
    match env_fetch w (request_params a api_key) with
    | inl err => Raise (SystemExit 1 ("Request failed: " +:+ err))
    | inr (JDict response) =>
        if negb (py_eq_str (dict_get "status" JNull response) "success") then
          let message :=
            py_or (py_or (dict_get "message" JNull response)
                         (dict_get "results" JNull response))
                  (JStr "Unknown error") in
          Raise (SystemExit 1 ("API error: " +:+ py_str repr_str message))
        else
          let results := py_or (dict_get "results" JNull response) (JList []) in
          d ← load_dump (output a) (env_file w);
          '(d, n_added, n_skipped) ← merge a response results (env_now w) d;
          Ok ("Saved " +:+ pretty n_added +:+ " new article(s), skipped "
                +:+ pretty n_skipped +:+ ". Output: " +:+ output a,
              save_dump d)
    | inr _ => Raise AttributeError
    end.

(** [main]: how the process ends, and the output file it leaves. *)
Definition main (a : args) (w : environment) : result string * file_state :=
  match main_run a w with
  | Ok (line, f) => (Ok line, f)
  | Raise e => (Raise e, env_file w)
  end.

End Client.

(** *** Example data *)

(** The text of a JSON list that holds the one string [headline]. *)
Definition example_bare_text : string :=
  "[" +:+ String (ascii_of_N 34) "headline" +:+ String (ascii_of_N 34) "]".

(** A decoder fixed on five texts, standing for [json.loads] in the
    examples. *)
Definition example_loads (text : string) : option json :=
  if decide (text = "[{}, {}]") then Some (JList [JDict []; JDict []])
  else if decide (text = "{}") then Some (JDict [])
  else if decide (text = "7") then Some (JInt 7)
  else if decide (text = example_bare_text) then Some (JList [JStr "headline"])
  else None.

Definition example_args : args :=
  {| query := None; category := "top"; country := "us"; language := "en";
     size := 2; page := None; output := "data/newsdata_dump.json" |}.

Definition example_response : dict :=
  [("status", JStr "success"); ("totalResults", JInt 2)].

(** A store with one record, whose key is [id:42]. *)
Definition example_store : dict :=
  [("schema_version", JStr "1.0"); ("updated_at", JNull);
   ("articles", JList [JDict [("article_id", JStr "42"); ("title", JStr "Old")]]);
   ("requests", JList [])].

(** A run whose fetch succeeds with the two example records, over an output
    file that holds [text]. *)
Definition example_environment (text : string) : environment :=
  {| env_api_key := Some "pub_example";
     env_now := "2026-01-05T08:00:00Z";
     env_fetch := fun _ =>
       inr (JDict [("status", JStr "success"); ("totalResults", JInt 2);
                   ("results", JList [JDict [("article_id", JStr "42")];
                                      JDict [("article_id", JStr "43")]])]);
     env_file := Content text |}.

Definition example_item_42 : dict :=
  [("article_id", JStr "42"); ("title", JStr "Old, fetched again")].
Definition example_item_43 : dict :=
  [("article_id", JStr "43"); ("title", JStr "New")].

End NewsdataClient.

(** ** [rss_openai_digest.py] *)

Module RssOpenaiDigest.
Import Py.

(** One selected feed, as [select_feeds] builds it from the catalog. *)
Record feed : Type := {
  feed_source_id : json;
  feed_source_name : json;
  feed_name : json;
  feed_url : json;
  feed_topic_tags : json;
}.

(** One entry of a parsed feed; a field the feed lacks is [None]. *)
Record entry : Type := {
  entry_title : option string;
  entry_link : option string;
  entry_summary : option string;
  entry_description : option string;
  entry_published : option string;
  entry_updated : option string;
}.

(** The item dictionary of [fetch_feed_items].  The last three keys are
    absent until [main] sets them. *)
Record item : Type := {
  id : string;
  title : string;
  link : string;
  summary : string;
  published : string;
  source_id : json;
  source_name : json;
  item_feed_name : json;
  item_feed_url : json;
  topic_tags : json;
  fetched_at : option string;
  ai_summary : option json;
  ai_tags : option json;
}.

Record feed_error : Type := {
  error_feed_url : json;
  error_source_id : json;
  error : string;
}.

(** The state of the loop over the feeds. *)
Record collect_state : Type := {
  items : list item;
  errors : list feed_error;
  seen : gset string;
}.

(** The flags the modelled part of [main] reads; [source_ids] is the flag
    already split at its commas. *)
Record args : Type := {
  catalog : string;
  max_sources : Z;
  feeds_per_source : Z;
  max_items_per_feed : Z;
  source_ids : list string;
  openai_model : option string;
  skip_openai : bool;
}.

Record openai_info : Type := {
  model : string;
  response_id : json;
  usage : json;
}.

(** The document written to the output path and to the archive. *)
Record output : Type := {
  schema_version : string;
  generated_at : string;
  catalog_path : string;
  request : Z * Z * Z * list string;
  openai : option openai_info;
  output_items : list item;
  output_errors : list feed_error;
}.

(** [a or b] on strings and on optional strings. *)
Definition str_or (a b : string) : string := if decide (a = "") then b else a.
Definition opt_or (a : option string) (b : string) : string :=
  str_or (default "" a) b.

Definition compact_text (value : string) (limit : Z) : string :=
  if decide (value = "") then ""
  else
    let compact := String.concat " " (py_split value) in
    if str_len compact <=? limit then compact
    else str_take (Z.max (limit - 3) 0) compact +:+ "...".

Definition dedupe_key (it : item) : string :=
  str_or (str_or (link it) (title it)) (id it).

Definition set_fetched_at (it : item) (t : string) : item :=
  {| id := id it; title := title it; link := link it; summary := summary it;
     published := published it; source_id := source_id it;
     source_name := source_name it; item_feed_name := item_feed_name it;
     item_feed_url := item_feed_url it; topic_tags := topic_tags it;
     fetched_at := Some t; ai_summary := ai_summary it; ai_tags := ai_tags it |}.

Definition set_ai (it : item) (s tags : json) : item :=
  {| id := id it; title := title it; link := link it; summary := summary it;
     published := published it; source_id := source_id it;
     source_name := source_name it; item_feed_name := item_feed_name it;
     item_feed_url := item_feed_url it; topic_tags := topic_tags it;
     fetched_at := fetched_at it; ai_summary := Some s; ai_tags := Some tags |}.

(** Lines 298-304 of [main]: one fetched item against the keys seen in this
    run. *)
Definition collect_item (now : string) (st : collect_state) (it : item)
  : collect_state :=
  let key := dedupe_key it in
  if decide (key ∈ seen st) then st
  else {| items := items st ++ [set_fetched_at it now];
          errors := errors st;
          seen := {[key]} ∪ seen st |}.

(** Lines 329-333: the response entries by id.  The dictionary is kept on
    its [str] keys: it is only read at [item["id"]], a [str], which no key of
    another type equals.  A list or object as a key is unhashable. *)
Definition mapping_step (mapping : gmap string json) (result_item : json)
  : result (gmap string json) :=
  item_key ← py_get result_item "id";
  if py_truthy item_key then
    match item_key with
    | JStr k => Ok (<[k := result_item]> mapping)
    | JList _ | JDict _ => Raise TypeError
    | _ => Ok mapping
    end
  else Ok mapping.

Definition build_mapping (parsed : json) : result (gmap string json) :=
  v ← py_get parsed "items";
  results ← py_iter (py_or v (JList []));
  for_each mapping_step ∅ results.

(** Lines 335-339: the body of the loop over the items. *)
Definition augment_item (mapping : gmap string json) (it : item) : result item :=
  match mapping !! id it with
  | Some ai =>
      if py_truthy ai then
        s ← py_get ai "summary";
        tags ← py_get ai "tags";
        Ok (set_ai it s (py_or tags (JList [])))
      else Ok it
  | None => Ok it
  end.

Fixpoint augment_items (mapping : gmap string json) (its : list item)
  : result (list item) :=
  match its with
  | [] => Ok []
  | it :: its' =>
      it' ← augment_item mapping it;
      its'' ← augment_items mapping its';
      Ok (it' :: its'')
  end.

(** Lines 329-339. *)
Definition augment (parsed : json) (its : list item) : result (list item) :=
  mapping ← build_mapping parsed;
  augment_items mapping its.

Section Digest.
Variable repr_str : string -> string.
(** [hashlib.sha1(_).hexdigest()] *)
Variable sha1_hexdigest : string -> string.
(** The text an [HTMLParser] reports for a document, and [html.unescape]. *)
Variable html_text : string -> string.
Variable html_unescape : string -> string.

Definition strip_html (value : string) : string :=
  if decide (value = "") then ""
  else py_strip (html_unescape (html_text value)).

Definition item_id (src : json) (link title : string) : string :=
  let base := py_strip (str_or (str_or link title) "") in
  let digest := sha1_hexdigest (py_str repr_str src +:+ ":" +:+ base) in
  str_take 12 digest.

(** The dictionary [fetch_feed_items] builds for one entry. *)
Definition entry_item (f : feed) (e : entry) : item :=
  let title := compact_text (py_strip (opt_or (entry_title e) "")) 200 in
  let link := py_strip (opt_or (entry_link e) "") in
  let summary :=
    compact_text
      (strip_html (str_or (opt_or (entry_summary e) "")
                          (opt_or (entry_description e) "")))
      500 in
  let published :=
    py_strip (str_or (opt_or (entry_published e) "")
                     (opt_or (entry_updated e) "")) in
  {| id := item_id (feed_source_id f) link title;
     title := title; link := link; summary := summary; published := published;
     source_id := feed_source_id f; source_name := feed_source_name f;
     item_feed_name := feed_name f; item_feed_url := feed_url f;
     topic_tags := feed_topic_tags f;
     fetched_at := None; ai_summary := None; ai_tags := None |}.

(** Lines 145-167 of [fetch_feed_items], on the parsed entries. *)
Definition feed_items (f : feed) (max_items : Z) (entries : list entry)
  : list item :=
  map (entry_item f) (py_take max_items entries).

(** What a run finds around it.  [env_fetch] gives the entries of a feed,
    or the text of the exception its download or parse raised;
    [env_openai] gives the decoded reply, its id and its usage, or the
    message of the [RuntimeError] of [call_openai]. *)
Record environment : Type := {
  env_now : string;
  env_fetch : feed -> string + list entry;
  env_openai_key : option string;
  env_openai_model : option string;
  env_openai : string -> list item -> string + (json * json * json);
}.

(** Lines 283-304: the body of the loop over the feeds. *)
Definition collect_feed (a : args) (w : environment)
    (st : collect_state) (f : feed) : collect_state :=
  match env_fetch w f with
  | inl err =>
      {| items := items st;
         errors := errors st ++ [{| error_feed_url := feed_url f;
                                    error_source_id := feed_source_id f;
                                    error := err |}];
         seen := seen st |}
  | inr entries =>
      foldl (collect_item (env_now w)) st
            (feed_items f (max_items_per_feed a) entries)
  end.

Definition collect (a : args) (w : environment) (feeds : list feed)
  : collect_state :=
  foldl (collect_feed a w) {| items := []; errors := []; seen := ∅ |} feeds.

(** Lines 321-345: the optional summarisation of the collected items. *)
Definition summarize (a : args) (w : environment) (its : list item)
  : result (list item * option openai_info) :=
  if bool_decide (its = []) || skip_openai a then Ok (its, None)
  else
    if decide (default "" (env_openai_key w) = "") then
      Raise (SystemExit 1 "Missing OPENAI_API_KEY.")
    else
      let model :=
        opt_or (openai_model a) (opt_or (env_openai_model w) "gpt-4o-mini") in
      match env_openai w model its with
      | inl err => Raise (RuntimeError err)
      | inr (parsed, rid, use) =>
          its' ← augment parsed its;
          Ok (its', Some {| model := model; response_id := rid; usage := use |})
      end.

(** [main] from the selected feeds on: the document it writes. *)
Definition main (a : args) (w : environment) (feeds : list feed)
  : result output :=
  if bool_decide (feeds = []) then
    Raise (SystemExit 1 "No feeds selected; check catalog or filters.")
  else
    let st := collect a w feeds in
    '(its, info) ← summarize a w (items st);
    Ok {| schema_version := "1.0";
          generated_at := env_now w;
          catalog_path := catalog a;
          request := (max_sources a, feeds_per_source a, max_items_per_feed a,
                      source_ids a);
          openai := info;
          output_items := its;
          output_errors := errors st |}.

End Digest.

(** *** Vocabulary of the properties *)

(** A value [mapping[item_key] = ...] accepts as a key once [if item_key:]
    has passed: anything but a list or an object that is not empty. *)
Definition hashable_key (v : json) : Prop :=
  match v with
  | JList (_ :: _) | JDict (_ :: _) => False
  | _ => True
  end.

(** A reply the summarisation can read: an object whose [items] is absent or
    falsy, or a list of objects whose [id] can be a dictionary key. *)
Definition readable_reply (parsed : json) (entries : list dict) : Prop :=
  exists d,
    parsed = JDict d
    /\ py_or (dict_get "items" JNull d) (JList []) = JList (map JDict entries)
    /\ Forall (fun r => hashable_key (dict_get "id" JNull r)) entries.

(** The entry of the reply that carries id [k]: the last one, as a later
    entry overwrites an earlier one; an empty id is never recorded. *)
Fixpoint last_with_id (k : string) (entries : list dict) : option dict :=
  match entries with
  | [] => None
  | r :: entries' =>
      match last_with_id k entries' with
      | Some r' => Some r'
      | None => if py_eq_str (dict_get "id" JNull r) k then Some r else None
      end
  end.

Definition reply_for (k : string) (entries : list dict) : option dict :=
  if decide (k = "") then None else last_with_id k entries.

(** What the loop over the items does to one item, given the reply. *)
Definition augmented (entries : list dict) (it : item) : item :=
  match reply_for (id it) entries with
  | Some r =>
      set_ai it (dict_get "summary" JNull r)
             (py_or (dict_get "tags" JNull r) (JList []))
  | None => it
  end.

(** The model [summarize] asks for. *)
Definition chosen_model (a : args) (w : environment) : string :=
  opt_or (openai_model a) (opt_or (env_openai_model w) "gpt-4o-mini").

(** *** Example data *)

Definition example_feed : feed :=
  {| feed_source_id := JStr "bbc"; feed_source_name := JStr "BBC";
     feed_name := JStr "World"; feed_url := JStr "https://example.org/rss";
     feed_topic_tags := JList [JStr "world"] |}.

Definition example_entry (t : string) (l : option string) : entry :=
  {| entry_title := Some t; entry_link := l; entry_summary := None;
     entry_description := None; entry_published := None;
     entry_updated := None |}.

Definition example_args : args :=
  {| catalog := "feed_catalog/rss_feeds.json"; max_sources := 10;
     feeds_per_source := 1; max_items_per_feed := 3; source_ids := [];
     openai_model := None; skip_openai := false |}.

Definition example_item (i t : string) : item :=
  {| id := i; title := t; link := "https://example.org/" +:+ i; summary := "";
     published := ""; source_id := JStr "bbc"; source_name := JStr "BBC";
     item_feed_name := JStr "World"; item_feed_url := JStr "https://example.org/rss";
     topic_tags := JList []; fetched_at := Some "2026-01-05T08:00:00Z";
     ai_summary := None; ai_tags := None |}.

Definition example_items : list item :=
  [example_item "aaaaaaaaaaaa" "First"; example_item "bbbbbbbbbbbb" "Second";
   example_item "cccccccccccc" "Third"].

(** A reply that covers the first and the third item. *)
Definition example_reply : json :=
  JDict [("items",
          JList [JDict [("id", JStr "aaaaaaaaaaaa"); ("summary", JStr "One.");
                        ("tags", JList [JStr "x"; JStr "y"; JStr "z"])];
                 JDict [("id", JStr "cccccccccccc"); ("summary", JStr "Three.")]])].

(** A reply whose [items] holds a string where an object is expected. *)
Definition example_bad_reply : json := JDict [("items", JList [JStr "oops"])].

(** Stand-ins for [hashlib.sha1] and for the HTML helpers in the examples:
    a fixed digest, and text with no markup and no entity in it. *)
Definition example_digest (_ : string) : string :=
  "0123456789abcdef0123456789abcdef01234567".
Definition example_html (text : string) : string := text.

Definition example_environment (reply : json) : environment :=
  {| env_now := "2026-01-05T08:00:00Z";
     env_fetch := fun _ =>
       inr [example_entry "Story" (Some "https://example.org/story");
            example_entry "https://example.org/story" None];
     env_openai_key := Some "sk-example";
     env_openai_model := None;
     env_openai := fun _ _ => inr (reply, JStr "resp-1", JNull) |}.

End RssOpenaiDigest.

(** ** Credentials: [read_env_file], [load_api_key], [load_env_value] *)

Module EnvFile.
Import Py.

(** How iterating over an open file ends: at its end, on an [OSError], or on
    bytes that are not UTF-8. *)
Inductive read_end : Type := Eof | OsError | DecodeError.

(** What [read_env_file] finds at a path: nothing, or a file whose
    iteration yields [lines] before it ends.  The lines are those the
    iterator hands to the loop, not those written in the file: the file is
    decoded a block at a time, so a fault is raised before any line of its
    block is yielded.  A file that cannot be opened is
    [Readable [] OsError]. *)
Inductive env_path : Type :=
| Absent
| Readable (lines : list string) (ending : read_end).

(** [s.strip(c)] for a one-character [c]. *)
Fixpoint lstrip_char (c : ascii) (s : string) : string :=
  match s with
  | EmptyString => EmptyString
  | String a r => if decide (a = c) then lstrip_char c r else s
  end.

Definition strip_char (c : ascii) (s : string) : string :=
  String.rev (lstrip_char c (String.rev (lstrip_char c s))).

(** [s.split(c, 1)] when [c] occurs in [s]; [None] when it does not. *)
Fixpoint split_once (c : ascii) (s : string) : option (string * string) :=
  match s with
  | EmptyString => None
  | String a r =>
      if decide (a = c) then Some (EmptyString, r)
      else match split_once c r with
           | Some (k, v) => Some (String a k, v)
           | None => None
           end
  end.

Definition starts_with_char (c : ascii) (s : string) : bool :=
  match s with
  | String a _ => bool_decide (a = c)
  | EmptyString => false
  end.

Definition double_quote : ascii := ascii_of_N 34.
Definition single_quote : ascii := ascii_of_N 39.

(** The body of the loop of [read_env_file] on one line: the value the line
    gives to [key_name], if it gives one. *)
Definition env_line (key_name line : string) : option string :=
  let line := py_strip line in
  if decide (line = "") then None
  else if starts_with_char "#" line then None
  else
    match split_once "=" line with
    | None => None
    | Some (key, value) =>
        if decide (py_strip key = key_name)
        then Some (strip_char single_quote
                     (strip_char double_quote (py_strip value)))
        else None
    end.

Fixpoint read_env_lines (key_name : string) (lines : list string)
    (ending : read_end) : result (option string) :=
  match lines with
  | [] =>
      match ending with
      | Eof | OsError => Ok None
      | DecodeError => Raise UnicodeDecodeError
      end
  | line :: lines' =>
      match env_line key_name line with
      | Some v => Ok (Some v)
      | None => read_env_lines key_name lines' ending
      end
  end.

Definition read_env_file (f : env_path) (key_name : string)
  : result (option string) :=
  match f with
  | Absent => Ok None
  | Readable lines ending => read_env_lines key_name lines ending
  end.

(** [load_env_value]: the process environment first, then the candidate
    files in order; a value that is empty counts as absent. *)
Fixpoint load_from_files (key_name : string) (files : list env_path)
  : result (option string) :=
  match files with
  | [] => Ok None
  | f :: files' =>
      value ← read_env_file f key_name;
      if bool_decide (default "" value = "") then load_from_files key_name files'
      else Ok value
  end.

Definition load_env_value (key_name : string) (environ : option string)
    (files : list env_path) : result (option string) :=
  if bool_decide (default "" environ = "") then load_from_files key_name files
  else Ok environ.

(** [load_api_key] of [newsdata_client.py]: the two candidate files are
    [.env] beside the script and [RSS_Feeds/.env] below it. *)
Definition load_api_key (environ : option string) (f1 f2 : env_path)
  : result (option string) :=
  load_env_value "NEWSDATA_API_KEY" environ [f1; f2].

(** *** Example data *)

Definition example_env_lines : list string :=
  ["# credentials"; ""; "export PATH"; "OPENAI_MODEL = gpt-4o ";
   " NEWSDATA_API_KEY = 'pub_123' "; "NEWSDATA_API_KEY=second"].

End EnvFile.

(** ** The digest: [extract_json], [select_feeds] and what a run fetches *)

Module DigestParts.
Import Py RssOpenaiDigest.

Fixpoint find_char (c : ascii) (s : string) : option nat :=
  match s with
  | EmptyString => None
  | String a r => if decide (a = c) then Some 0%nat else S <$> find_char c r
  end.

Fixpoint rfind_char (c : ascii) (s : string) : option nat :=
  match s with
  | EmptyString => None
  | String a r =>
      match rfind_char c r with
      | Some i => Some (S i)
      | None => if decide (a = c) then Some 0%nat else None
      end
  end.

Fixpoint last_char (s : string) : option ascii :=
  match s with
  | EmptyString => None
  | String a EmptyString => Some a
  | String _ r => last_char r
  end.

Definition first_char (s : string) : option ascii :=
  match s with
  | EmptyString => None
  | String a _ => Some a
  end.

(** [extract_json].  The braces are single bytes that occur in no other
    code point, so positions are counted in bytes: the slice between two of
    them is the same text. *)
Definition extract_json (text : string) : string :=
  let text := py_strip text in
  if bool_decide (first_char text = Some "{"%char)
     && bool_decide (last_char text = Some "}"%char) then text
  else
    match find_char "{" text, rfind_char "}" text with
    | Some start, Some stop =>
        if (start <? stop)%nat then substring start (stop + 1 - start) text
        else ""
    | _, _ => ""
    end.

Section Parse.
(** [json.loads] with the text of its [JSONDecodeError]. *)
Variable json_decode : string -> string + json.

(** Lines 238-245 of [call_openai]: the reply text to the decoded object. *)
Definition parse_content (content : string) : result json :=
  let raw := extract_json content in
  if decide (raw = "") then Raise (RuntimeError "OpenAI returned empty content.")
  else
    match json_decode raw with
    | inl err => Raise (RuntimeError ("Failed to parse OpenAI JSON: " +:+ err))
    | inr parsed => Ok parsed
    end.
End Parse.

(** [v[:n]].  A [dict] raises [TypeError] up to Python 3.11 and [KeyError]
    from 3.12 on; the first is taken. *)
Definition py_slice_to (v : json) (n : Z) : result json :=
  match v with
  | JList l => Ok (JList (py_take n l))
  | JStr s => Ok (JStr (str_take n s))
  | _ => Raise TypeError
  end.

(** The dictionary [select_feeds] appends for one feed of one source. *)
Definition selected_feed (source f : json) : result feed :=
  sid ← py_get source "id";
  sname ← py_get source "name";
  fname ← py_get f "name";
  furl ← py_get f "url";
  tags ← py_get f "topic_tags";
  Ok {| feed_source_id := sid; feed_source_name := sname; feed_name := fname;
        feed_url := furl; feed_topic_tags := py_or tags (JList []) |}.

Fixpoint selected_feeds (source : json) (fs : list json) : result (list feed) :=
  match fs with
  | [] => Ok []
  | f :: fs' =>
      x ← selected_feed source f;
      xs ← selected_feeds source fs';
      Ok (x :: xs)
  end.

(** [source.get("id") not in source_ids], read only when [source_ids] is
    not empty. *)
Definition filtered_out (source_ids : list string) (source : json) : result bool :=
  match source_ids with
  | [] => Ok false
  | _ => sid ← py_get source "id";
         Ok (negb (existsb (py_eq_str sid) source_ids))
  end.

(** The loop of [select_feeds] over the sources, with its [continue] and
    its [break]. *)
Fixpoint select_loop (max_sources feeds_per_source : Z) (source_ids : list string)
    (sources : list json) (selected_sources : Z) (feeds : list feed)
  : result (list feed) :=
  match sources with
  | [] => Ok feeds
  | source :: sources' =>
      skip ← filtered_out source_ids source;
      if (skip : bool) then
        select_loop max_sources feeds_per_source source_ids sources'
          selected_sources feeds
      else if max_sources <=? selected_sources then Ok feeds
      else
        feed_list ← py_get source "feeds";
        part ← py_slice_to (py_or feed_list (JList [])) feeds_per_source;
        fs ← py_iter part;
        new ← selected_feeds source fs;
        select_loop max_sources feeds_per_source source_ids sources'
          (selected_sources + 1) (feeds ++ new)
  end.

Definition select_feeds (catalog : json) (max_sources feeds_per_source : Z)
    (source_ids : list string) : result (list feed) :=
  v ← py_get catalog "sources";
  sources ← py_iter (py_or v (JList []));
  select_loop max_sources feeds_per_source source_ids sources 0 [].

Section Fetched.
Variable repr_str : string -> string.
Variable sha1_hexdigest : string -> string.
Variable html_text : string -> string.
Variable html_unescape : string -> string.

(** The items the feeds of a run deliver, in order, before the dedupe: those
    of the feeds whose download and parse succeed. *)
Definition fetched (a : args) (w : environment) (feeds : list feed) : list item :=
  mjoin (map (fun f =>
                match env_fetch w f with
                | inl _ => []
                | inr entries =>
                    feed_items repr_str sha1_hexdigest html_text html_unescape
                      f (max_items_per_feed a) entries
                end) feeds).

(** The error records of the feeds that fail, in order. *)
Definition failures (w : environment) (feeds : list feed) : list feed_error :=
  omap (fun f =>
          match env_fetch w f with
          | inl err => Some {| error_feed_url := feed_url f;
                               error_source_id := feed_source_id f;
                               error := err |}
          | inr _ => None
          end) feeds.

(** The first item of each dedupe key, in order, given the keys seen. *)
Fixpoint first_of_key (keys : gset string) (its : list item) : list item :=
  match its with
  | [] => []
  | it :: its' =>
      if decide (dedupe_key it ∈ keys) then first_of_key keys its'
      else it :: first_of_key ({[dedupe_key it]} ∪ keys) its'
  end.
End Fetched.

(** The sources the filter of [select_feeds] lets through. *)
Definition listed (source_ids : list string) (source : dict) : bool :=
  existsb (py_eq_str (dict_get "id" JNull source)) source_ids.

(** *** Example data *)

Definition example_catalog : json :=
  JDict [("sources",
          JList [JDict [("id", JStr "bbc"); ("name", JStr "BBC");
                        ("feeds",
                         JList [JDict [("name", JStr "World");
                                       ("url", JStr "https://example.org/w")];
                                JDict [("name", JStr "Tech");
                                       ("url", JStr "https://example.org/t")]])];
                 JDict [("id", JStr "npr"); ("name", JStr "NPR");
                        ("feeds",
                         JList [JDict [("name", JStr "News");
                                       ("url", JStr "https://example.org/n")]])]])].

End DigestParts.

(** ** The code points of a text, as [code_points] cuts them *)

Module Utf8.
Import Py.

(** A continuation byte of UTF-8. *)
Definition cont (a : ascii) : bool := byte_in 128 191 a.

Fixpoint all_cont (s : string) : bool :=
  match s with
  | EmptyString => true
  | String a r => cont a && all_cont r
  end.

(** One code point: a byte that is no continuation byte, then continuation
    bytes only. *)
Definition lead_chunk (c : string) : bool :=
  match c with
  | EmptyString => false
  | String a cs => negb (cont a) && all_cont cs
  end.

(** A list of chunks as [code_points] returns it: code points, after at
    most one run of stray continuation bytes. *)
Definition chunks (l : list string) : Prop :=
  match l with
  | [] => True
  | c :: l' =>
      (lead_chunk c = true \/ (c <> "" /\ all_cont c = true))
      /\ Forall (fun c => lead_chunk c = true) l'
  end.

End Utf8.

(** ** Example data of the further properties *)

Module NewsdataExamples.
Import Py NewsdataClient.

(** The example store after the two example records are merged into it:
    the record [42] was there, the record [43] is new. *)
Definition example_merged : dict :=
  [("schema_version", JStr "1.0"); ("updated_at", JStr "2026-01-05T08:00:00Z");
   ("articles",
    JList [JDict [("article_id", JStr "42"); ("title", JStr "Old")];
           JDict (stamped example_args "2026-01-05T08:00:00Z" example_item_43)]);
   ("requests",
    JList [request_record example_args example_response
             "2026-01-05T08:00:00Z" 2 1 1])].

(** Stand-ins for [json.dumps] and [json.loads] on two texts, the second of
    which is what the first writes for the merged store. *)
Definition example_dumps (_ : json) : string := "<merged>".
Definition example_reloads (text : string) : option json :=
  if decide (text = "<stored>") then Some (JDict example_store)
  else if decide (text = "<merged>") then Some (JDict example_merged)
  else None.

End NewsdataExamples.

Module DigestExamples.
Import Py RssOpenaiDigest DigestParts.

Definition example_args_skip : args :=
  {| catalog := "feed_catalog/rss_feeds.json"; max_sources := 10;
     feeds_per_source := 1; max_items_per_feed := 3; source_ids := [];
     openai_model := None; skip_openai := true |}.

(** The sources of [example_catalog]. *)
Definition example_sources : list dict :=
  [[("id", JStr "bbc"); ("name", JStr "BBC");
    ("feeds",
     JList [JDict [("name", JStr "World"); ("url", JStr "https://example.org/w")];
            JDict [("name", JStr "Tech"); ("url", JStr "https://example.org/t")]])];
   [("id", JStr "npr"); ("name", JStr "NPR");
    ("feeds",
     JList [JDict [("name", JStr "News"); ("url", JStr "https://example.org/n")]])]].

(** The one feed of the source [npr]. *)
Definition example_selected : list feed :=
  [{| feed_source_id := JStr "npr"; feed_source_name := JStr "NPR";
      feed_name := JStr "News"; feed_url := JStr "https://example.org/n";
      feed_topic_tags := JList [] |}].

End DigestExamples.

(** * Properties *)

(** ** Dictionaries and loops *)

Module PyFacts.
Import Py.

Lemma dict_lookup_set_eq (k : string) (v : json) (d : dict) :
  dict_lookup k (dict_set k v d) = Some v.
Proof.
  induction d as [|[k' v'] d IH]; simpl.
  - by rewrite decide_True.
  - destruct (decide (k' = k)) as [->|Hne]; simpl.
    + by rewrite decide_True.
    + by rewrite decide_False.
Qed.

Lemma dict_lookup_set_ne (k k' : string) (v : json) (d : dict) :
  k <> k' -> dict_lookup k' (dict_set k v d) = dict_lookup k' d.
Proof.
  intros Hne. induction d as [|[k0 v0] d IH]; simpl.
  - by rewrite decide_False.
  - destruct (decide (k0 = k)) as [->|Hk0]; simpl.
    + by rewrite !decide_False.
    + by rewrite IH.
Qed.

Lemma dict_set_set (k : string) (v w : json) (d : dict) :
  dict_set k w (dict_set k v d) = dict_set k w d.
Proof.
  induction d as [|[k0 v0] d IH]; simpl.
  - by rewrite decide_True.
  - destruct (decide (k0 = k)) as [->|Hk0]; simpl.
    + by rewrite decide_True.
    + by rewrite decide_False, IH.
Qed.

Lemma dict_set_id (k : string) (v : json) (d : dict) :
  dict_lookup k d = Some v -> dict_set k v d = d.
Proof.
  induction d as [|[k0 v0] d IH]; simpl; [done|].
  destruct (decide (k0 = k)) as [->|Hk0]; intros H.
  - by simplify_eq.
  - by rewrite IH.
Qed.

Lemma dict_lookup_app (k : string) (d1 d2 : dict) :
  dict_lookup k (d1 ++ d2) =
  match dict_lookup k d1 with Some v => Some v | None => dict_lookup k d2 end.
Proof.
  induction d1 as [|[k0 v0] d1 IH]; simpl; [done|].
  by destruct (decide (k0 = k)).
Qed.

Lemma dict_lookup_setdefault_eq (k : string) (v : json) (d : dict) :
  dict_lookup k (dict_setdefault k v d) = Some (default v (dict_lookup k d)).
Proof.
  unfold dict_setdefault. destruct (dict_lookup k d) as [x|] eqn:E; simpl.
  - done.
  - rewrite dict_lookup_app, E. simpl. by rewrite decide_True.
Qed.

Lemma dict_lookup_setdefault_ne (k k' : string) (v : json) (d : dict) :
  k <> k' -> dict_lookup k' (dict_setdefault k v d) = dict_lookup k' d.
Proof.
  intros Hne. unfold dict_setdefault. destruct (dict_lookup k d); [done|].
  rewrite dict_lookup_app. destruct (dict_lookup k' d); [done|].
  simpl. by rewrite decide_False.
Qed.

Lemma dict_setdefault_present (k : string) (v x : json) (d : dict) :
  dict_lookup k d = Some x -> dict_setdefault k v d = d.
Proof. unfold dict_setdefault. by intros ->. Qed.

Lemma dict_get_set_ne (k k' : string) (v dflt : json) (d : dict) :
  k <> k' -> dict_get k' dflt (dict_set k v d) = dict_get k' dflt d.
Proof. intros. unfold dict_get. by rewrite dict_lookup_set_ne. Qed.

Lemma is_record_inv (v : json) : is_record v -> exists d, v = JDict d.
Proof. destruct v; simpl; try done. eauto. Qed.

Lemma Forall_is_record (l : list json) :
  Forall is_record l -> exists ds, l = map JDict ds.
Proof.
  induction 1 as [|x l Hx _ [ds ->]].
  - by exists [].
  - destruct (is_record_inv x Hx) as [d ->]. by exists (d :: ds).
Qed.

Lemma Forall_is_record_map (ds : list dict) : Forall is_record (map JDict ds).
Proof. induction ds; constructor; simpl; auto. Qed.

(** *** The string functions on small inputs *)

Example py_strip_ascii : py_strip "  id 7
" = "id 7".
Proof. reflexivity. Qed.

(** U+00A0 before and U+2003 after the text are stripped; the letter e with
    an acute accent (two bytes) is kept. *)
Example py_strip_unicode :
  py_strip (String (ascii_of_N 194) (String (ascii_of_N 160)
              (String (ascii_of_N 195) (String (ascii_of_N 169)
                 (String (ascii_of_N 226) (String (ascii_of_N 128)
                    (String (ascii_of_N 131) EmptyString)))))))
  = String (ascii_of_N 195) (String (ascii_of_N 169) EmptyString).
Proof. reflexivity. Qed.

Example py_split_runs : py_split " a  bc
 d " = ["a"; "bc"; "d"].
Proof. reflexivity. Qed.

Example py_take_negative : py_take (-1) [1; 2; 3] = [1; 2].
Proof. reflexivity. Qed.

Example py_str_of_list :
  py_str repr_ascii (JList [JInt (-3); JStr "a"; JBool true; JNull])
  = "[-3, 'a', True, None]".
Proof. reflexivity. Qed.

Example py_or_falsy : py_or (JInt 0) (JStr "") = JStr "".
Proof. reflexivity. Qed.

End PyFacts.

(** ** The news store *)

Module NewsdataProps.
Import Py PyFacts NewsdataClient.

(** Unfold the key of a record down to the fields it reads. *)
Ltac unfold_key :=
  unfold NewsdataClient.record_key, NewsdataClient.key_tier,
    NewsdataClient.external_id, NewsdataClient.link_text,
    NewsdataClient.title_text, NewsdataClient.pub_date_text,
    NewsdataClient.source_text.

(** Step through a [bind] whose first part has returned. *)
Ltac step := cbn [mbind result_bind].
Tactic Notation "step_in" hyp(H) := cbn [mbind result_bind] in H.

Section Merge.
Variable repr_str : string -> string.

Local Abbreviation article_key := (article_key repr_str).
Local Abbreviation record_key := (record_key repr_str).
Local Abbreviation external_id := (external_id repr_str).
Local Abbreviation link_text := (link_text repr_str).
Local Abbreviation title_text := (title_text repr_str).
Local Abbreviation pub_date_text := (pub_date_text repr_str).
Local Abbreviation source_text := (source_text repr_str).
Local Abbreviation key_tier := (key_tier repr_str).
Local Abbreviation seed_keys := (seed_keys repr_str).
Local Abbreviation merge_step := (merge_step repr_str).
Local Abbreviation merge := (merge repr_str).
Local Abbreviation unseen := (unseen repr_str).
Local Abbreviation unique_keys := (unique_keys repr_str).
Local Abbreviation key_set := (key_set repr_str).

Lemma article_key_record (d : dict) : article_key (JDict d) = Ok (record_key d).
Proof.
  unfold NewsdataClient.article_key. unfold_key. unfold py_or. simpl.
  destruct (negb (bool_decide (field_text repr_str (dict_get "article_id" JNull d) = "")));
    [done|].
  destruct (negb (bool_decide (field_text repr_str (dict_get "link" JNull d) = "")));
    [done|].
  by destruct (py_truthy (dict_get "pubDate" JNull d)),
              (py_truthy (dict_get "source_id" JNull d)).
Qed.

Lemma article_key_not_record (v : json) :
  ~ is_record v -> article_key v = Raise AttributeError.
Proof. destruct v; simpl; intros H; done. Qed.

Lemma article_key_ok_iff (v : json) : is_ok (article_key v) <-> is_record v.
Proof.
  split.
  - intros [k Hk]. destruct v; simpl in *; try done.
  - intros Hv. destruct (is_record_inv v Hv) as [d ->].
    exists (record_key d). apply article_key_record.
Qed.

(** Writing a field the key does not read leaves the key as it was. *)
Lemma record_key_set (k : string) (v : json) (d : dict) :
  k ∉ key_fields -> record_key (dict_set k v d) = record_key d.
Proof.
  intros Hk.
  assert (forall f dflt, f ∈ key_fields ->
            dict_get f dflt (dict_set k v d) = dict_get f dflt d) as Hget.
  { intros f dflt Hf. apply dict_get_set_ne. by intros ->. }
  unfold_key.
  rewrite !Hget; [done | compute_done ..].
Qed.

Lemma record_key_stamped (a : args) (t : string) (d : dict) :
  record_key (stamped a t d) = record_key d.
Proof.
  unfold stamped.
  rewrite !record_key_set; [done | compute_done ..].
Qed.

Lemma map_record_key_stamped (a : args) (t : string) (ds : list dict) :
  map record_key (map (stamped a t) ds) = map record_key ds.
Proof.
  induction ds as [|d ds IH]; [done|].
  cbn [map]. by rewrite record_key_stamped, IH.
Qed.

(** *** The records a pass appends *)

Lemma unseen_sublist (keys : gset string) (items : list dict) :
  sublist (unseen keys items) items.
Proof.
  revert keys. induction items as [|it items IH]; intros keys; simpl.
  - constructor.
  - destruct (decide (record_key it ∈ keys)).
    + by apply sublist_cons.
    + by apply sublist_skip.
Qed.

Lemma unseen_length (keys : gset string) (items : list dict) :
  (length (unseen keys items) <= length items)%nat.
Proof. apply sublist_length, unseen_sublist. Qed.

Lemma unseen_fresh (keys : gset string) (items : list dict) (x : dict) :
  x ∈ unseen keys items -> record_key x ∉ keys.
Proof.
  revert keys. induction items as [|it items IH]; intros keys; simpl.
  - by intros ?%elem_of_nil.
  - destruct (decide (record_key it ∈ keys)) as [|Hnew]; [by apply IH|].
    intros [->|Hx]%elem_of_cons; [done|].
    apply IH in Hx. set_solver.
Qed.

Lemma unseen_NoDup (keys : gset string) (items : list dict) :
  NoDup (map record_key (unseen keys items)).
Proof.
  revert keys. induction items as [|it items IH]; intros keys; simpl.
  - constructor.
  - destruct (decide (record_key it ∈ keys)) as [|Hnew]; [by apply IH|].
    simpl. constructor; [|by apply IH].
    intros (x & Hk & Hx)%list_elem_of_fmap.
    apply unseen_fresh in Hx. set_solver.
Qed.

Lemma unseen_keys_elem (keys : gset string) (items : list dict) (x : string) :
  x ∈ map record_key (unseen keys items) \/ x ∈ keys
  <-> x ∈ map record_key items \/ x ∈ keys.
Proof.
  revert keys. induction items as [|it items IH]; intros keys; [done|].
  cbn [NewsdataClient.unseen map].
  destruct (decide (record_key it ∈ keys)) as [Hin|Hnew].
  - rewrite IH, elem_of_cons. naive_solver.
  - cbn [map]. rewrite !elem_of_cons.
    specialize (IH ({[record_key it]} ∪ keys)).
    rewrite elem_of_union, elem_of_singleton in IH. tauto.
Qed.

Lemma unseen_keys (keys : gset string) (items : list dict) :
  list_to_set (map record_key (unseen keys items)) ∪ keys
  = list_to_set (map record_key items) ∪ keys.
Proof.
  apply set_eq. intros x.
  rewrite !elem_of_union, !elem_of_list_to_set. apply unseen_keys_elem.
Qed.

Lemma unseen_all_seen (keys : gset string) (items : list dict) :
  (forall x, x ∈ items -> record_key x ∈ keys) -> unseen keys items = [].
Proof.
  induction items as [|it items IH]; intros Hall; simpl; [done|].
  rewrite decide_True by (apply Hall; set_solver).
  apply IH. intros x Hx. apply Hall. set_solver.
Qed.

(** *** The two loops of [main] *)

Lemma seed_keys_records (ds : list dict) :
  seed_keys (map JDict ds) = Ok (list_to_set (map record_key ds)).
Proof.
  unfold NewsdataClient.seed_keys.
  assert (forall acc : gset string,
    for_each (fun keys item => key ← article_key item; Ok ({[key]} ∪ keys))
      acc (map JDict ds)
    = Ok (list_to_set (map record_key ds) ∪ acc)) as Hgen.
  { induction ds as [|d ds IH]; intros acc.
    - simpl. f_equal. by rewrite (left_id_L ∅ (∪)).
    - cbn [map for_each]. rewrite article_key_record. step.
      rewrite IH. f_equal. rewrite list_to_set_cons.
      apply set_eq. intros x. rewrite !elem_of_union. tauto. }
  rewrite Hgen. f_equal. by rewrite (right_id_L ∅ (∪)).
Qed.

Lemma seed_keys_ok (l : list json) :
  is_ok (seed_keys l) <-> Forall is_record l.
Proof.
  split.
  - unfold NewsdataClient.seed_keys. generalize (∅ : gset string).
    induction l as [|x l IH]; intros acc; [constructor|].
    cbn [for_each]. intros [ks Hks].
    destruct (article_key x) as [k|e] eqn:Hx; [|done].
    constructor.
    + apply article_key_ok_iff. by exists k.
    + apply (IH ({[k]} ∪ acc)). by exists ks.
  - intros [ds ->]%Forall_is_record. rewrite seed_keys_records. by eexists.
Qed.

Lemma merge_step_seen (a : args) (t : string) (st : merge_state) (d : dict) :
  record_key d ∈ existing_keys st ->
  merge_step a t st (JDict d)
  = Ok {| dump := dump st; existing_keys := existing_keys st;
          added := added st; skipped := skipped st + 1 |}.
Proof.
  intros Hin. unfold NewsdataClient.merge_step.
  rewrite article_key_record. step.
  by rewrite decide_True.
Qed.

Lemma merge_step_new (a : args) (t : string) (st : merge_state) (d : dict)
    (l : list json) :
  record_key d ∉ existing_keys st ->
  dict_lookup "articles" (dump st) = Some (JList l) ->
  merge_step a t st (JDict d)
  = Ok {| dump := dict_set "articles" (JList (l ++ [JDict (stamped a t d)])) (dump st);
          existing_keys := {[record_key d]} ∪ existing_keys st;
          added := added st + 1; skipped := skipped st |}.
Proof.
  intros Hnew Hl. unfold NewsdataClient.merge_step.
  rewrite article_key_record. step.
  rewrite decide_False by done.
  cbn [py_setitem mbind result_bind]. by rewrite Hl.
Qed.

(** The loop over the fetched records, in closed form. *)
Lemma merge_loop (a : args) (t : string) (items : list dict) :
  forall (st : merge_state) (l : list json),
    dict_lookup "articles" (dump st) = Some (JList l) ->
    exists st',
      for_each (merge_step a t) st (map JDict items) = Ok st'
      /\ dump st'
         = dict_set "articles"
             (JList (l ++ map (fun d => JDict (stamped a t d))
                              (unseen (existing_keys st) items)))
             (dump st)
      /\ existing_keys st' = list_to_set (map record_key items) ∪ existing_keys st
      /\ added st' = added st + Z.of_nat (length (unseen (existing_keys st) items))
      /\ skipped st'
         = skipped st + (Z.of_nat (length items)
                         - Z.of_nat (length (unseen (existing_keys st) items))).
Proof.
  induction items as [|d items IH]; intros st l Hl.
  - exists st. cbn [map for_each NewsdataClient.unseen length].
    rewrite app_nil_r, dict_set_id by done.
    rewrite list_to_set_nil, (left_id_L ∅ (∪)). repeat split; lia.
  - cbn [map for_each NewsdataClient.unseen].
    destruct (decide (record_key d ∈ existing_keys st)) as [Hin|Hnew].
    + rewrite merge_step_seen by done. step.
      destruct (IH {| dump := dump st; existing_keys := existing_keys st;
                      added := added st; skipped := skipped st + 1 |} l Hl)
        as (st' & Hrun & Hd & Hk & Ha & Hs).
      cbn [dump existing_keys added skipped] in *.
      exists st'. rewrite Hrun, Hd, Hk, Ha, Hs. repeat split.
      * rewrite list_to_set_cons. apply set_eq. intros x.
        rewrite !elem_of_union, elem_of_singleton. naive_solver.
      * cbn [length]. lia.
    + rewrite (merge_step_new a t st d l) by done. step.
      edestruct (IH {| dump := dict_set "articles"
                                 (JList (l ++ [JDict (stamped a t d)])) (dump st);
                       existing_keys := {[record_key d]} ∪ existing_keys st;
                       added := added st + 1; skipped := skipped st |})
        as (st' & Hrun & Hd & Hk & Ha & Hs).
      { cbn [dump]. apply dict_lookup_set_eq. }
      cbn [dump existing_keys added skipped] in *.
      exists st'. rewrite Hrun, Hd, Hk, Ha, Hs. repeat split.
      * rewrite dict_set_set. cbn [map]. by rewrite <- app_assoc.
      * rewrite list_to_set_cons. apply set_eq. intros x.
        rewrite !elem_of_union, elem_of_singleton. tauto.
      * cbn [length]. lia.
      * cbn [length]. lia.
Qed.

(** *** The merge on a loaded store of records *)

Lemma merge_records (a : args) (response : dict) (t : string) (d : dict)
    (arts items : list dict) (reqs : list json) :
  dict_lookup "articles" d = Some (JList (map JDict arts)) ->
  dict_lookup "requests" d = Some (JList reqs) ->
  let sel := unseen (list_to_set (map record_key arts)) items in
  let n_added := Z.of_nat (length sel) in
  let n_skipped := Z.of_nat (length items) - Z.of_nat (length sel) in
  exists d',
    merge a response (JList (map JDict items)) t d = Ok (d', n_added, n_skipped)
    /\ dict_lookup "articles" d'
       = Some (JList (map JDict arts ++ map (fun x => JDict (stamped a t x)) sel))
    /\ dict_lookup "requests" d'
       = Some (JList (reqs ++ [request_record a response t
                                 (Z.of_nat (length items)) n_added n_skipped]))
    /\ dict_lookup "updated_at" d' = Some (JStr t)
    /\ (forall k, k <> "articles" -> k <> "requests" -> k <> "updated_at" ->
          dict_lookup k d' = dict_lookup k d).
Proof.
  intros Ha Hr sel n_added n_skipped.
  destruct (merge_loop a t items
              {| dump := d; existing_keys := list_to_set (map record_key arts);
                 added := 0; skipped := 0 |} (map JDict arts) Ha)
    as (st & Hrun & Hd & _ & Hadd & Hskip).
  cbn [dump existing_keys added skipped] in *.
  fold sel in Hd, Hadd, Hskip.
  assert (dict_lookup "requests" (dict_set "updated_at" (JStr t) (dump st))
          = Some (JList reqs)) as Hr'.
  { rewrite dict_lookup_set_ne by done. rewrite Hd.
    by rewrite dict_lookup_set_ne. }
  eexists. split.
  - unfold NewsdataClient.merge, dict_get. rewrite Ha.
    cbn [default from_option id py_iter mbind result_bind].
    rewrite seed_keys_records. step.
    rewrite Hrun. cbn [mbind result_bind py_len].
    rewrite (dict_setdefault_present _ _ _ _ Hr'), Hr'.
    cbn [default from_option id py_append mbind result_bind].
    rewrite length_map, Hadd, Hskip. reflexivity.
  - rewrite Hd. split; [|split; [|split]].
    + rewrite !dict_lookup_set_ne by done. apply dict_lookup_set_eq.
    + apply dict_lookup_set_eq.
    + rewrite dict_lookup_set_ne by done. apply dict_lookup_set_eq.
    + intros k Hk1 Hk2 Hk3. by rewrite !dict_lookup_set_ne.
Qed.

Lemma key_set_records (ds : list dict) :
  key_set (map JDict ds) = list_to_set (map record_key ds).
Proof.
  induction ds as [|d ds IH]; [done|].
  cbn [map NewsdataClient.key_set]. rewrite article_key_record, IH.
  by rewrite list_to_set_cons.
Qed.

Lemma unique_keys_records (ds : list dict) :
  unique_keys (map JDict ds) <-> NoDup (map record_key ds).
Proof.
  rewrite NoDup_alt. unfold NewsdataClient.unique_keys. split.
  - intros Huniq i j k Hi Hj.
    apply list_lookup_fmap_Some_1 in Hi as (x & -> & Hx).
    apply list_lookup_fmap_Some_1 in Hj as (y & Hxy & Hy).
    apply (Huniq i j (JDict x) (JDict y) (record_key x)).
    + by apply list_lookup_fmap_Some_2.
    + by apply list_lookup_fmap_Some_2.
    + apply article_key_record.
    + rewrite article_key_record. by rewrite Hxy.
  - intros Hnd i j x y k Hi Hj Hx Hy.
    apply list_lookup_fmap_Some_1 in Hi as (dx & -> & Hdx).
    apply list_lookup_fmap_Some_1 in Hj as (dy & -> & Hdy).
    rewrite article_key_record in Hx, Hy.
    injection Hx as <-. injection Hy as Hy.
    apply (Hnd i j (record_key dx)).
    + by apply list_lookup_fmap_Some_2.
    + rewrite <- Hy. by apply list_lookup_fmap_Some_2.
Qed.

Lemma loaded_store_inv (d : dict) :
  loaded_store d ->
  dict_lookup "articles" d = Some (JList (articles_of d))
  /\ dict_lookup "requests" d = Some (JList (requests_of d)).
Proof.
  intros [[l Hl] [r Hr]]. unfold articles_of, requests_of. by rewrite Hl, Hr.
Qed.

(** The merge on a loaded store of records, by the sequences it holds. *)
Lemma merge_loaded (a : args) (response : dict) (t : string) (d : dict)
    (arts items : list dict) :
  loaded_store d ->
  articles_of d = map JDict arts ->
  let sel := unseen (list_to_set (map record_key arts)) items in
  let n_added := Z.of_nat (length sel) in
  let n_skipped := Z.of_nat (length items) - Z.of_nat (length sel) in
  exists d',
    merge a response (JList (map JDict items)) t d = Ok (d', n_added, n_skipped)
    /\ loaded_store d'
    /\ articles_of d' = map JDict (arts ++ map (stamped a t) sel)
    /\ requests_of d'
       = requests_of d ++ [request_record a response t
                             (Z.of_nat (length items)) n_added n_skipped].
Proof.
  intros Hd Harts sel n_added n_skipped.
  destruct (loaded_store_inv d Hd) as [Ha Hr]. rewrite Harts in Ha.
  destruct (merge_records a response t d arts items (requests_of d) Ha Hr)
    as (d' & Hrun & Ha' & Hr' & _).
  exists d'. split; [exact Hrun|].
  split; [split; eauto|].
  unfold articles_of, requests_of at 1. rewrite Ha', Hr'.
  split; [|done]. by rewrite map_app, map_map.
Qed.

Lemma merge_loop_ok_inv (a : args) (t : string) (l : list json) :
  forall st, is_ok (for_each (merge_step a t) st l) -> Forall is_record l.
Proof.
  induction l as [|x l IH]; intros st [st' Hrun]; [constructor|].
  cbn [for_each] in Hrun.
  destruct (merge_step a t st x) as [st1|e] eqn:Hstep; [|done].
  constructor.
  - apply article_key_ok_iff. unfold NewsdataClient.merge_step in Hstep.
    destruct (article_key x); [by eexists|done].
  - apply (IH st1). by eexists.
Qed.

(** On a loaded store the merge returns exactly when the stored and the
    fetched elements are all records. *)
Lemma merge_ok_iff (a : args) (response : dict) (t : string) (d : dict)
    (results : list json) :
  loaded_store d ->
  is_ok (merge a response (JList results) t d)
  <-> Forall is_record (articles_of d) /\ Forall is_record results.
Proof.
  intros Hd. split.
  - intros [out Hrun]. destruct (loaded_store_inv d Hd) as [Ha _].
    unfold NewsdataClient.merge, dict_get in Hrun. rewrite Ha in Hrun.
    cbn [default from_option id py_iter mbind result_bind] in Hrun.
    destruct (seed_keys (articles_of d)) as [keys|e] eqn:Hseed; [|done].
    step_in Hrun.
    destruct (for_each (merge_step a t) _ results) as [st|e] eqn:Hloop; [|done].
    split.
    + apply seed_keys_ok. by eexists.
    + eapply merge_loop_ok_inv. by eexists.
  - intros [[arts Harts]%Forall_is_record [items ->]%Forall_is_record].
    destruct (merge_loaded a response t d arts items Hd Harts) as (d' & -> & _).
    by eexists.
Qed.

(** ** The claims about the merge *)

(** C1.  A store holding one record whose key is [id:42], merged with a fetch
    of two records with [article_id] "42" and "43" in that order: the merge
    appends the second record alone, counts one addition and one skip, and
    appends one request-audit record carrying [added = 1] and
    [skipped = 1]. *)
Theorem merge_scenario (a : args) (response : dict) (t : string) (d : dict)
    (r : json) (x y : dict) :
  loaded_store d ->
  articles_of d = [r] ->
  article_key r = Ok "id:42" ->
  dict_lookup "article_id" x = Some (JStr "42") ->
  dict_lookup "article_id" y = Some (JStr "43") ->
  exists d' audit,
    merge a response (JList [JDict x; JDict y]) t d = Ok (d', 1, 1)
    /\ articles_of d' = [r; JDict (stamped a t y)]
    /\ requests_of d' = requests_of d ++ [audit]
    /\ py_get audit "added" = Ok (JInt 1)
    /\ py_get audit "skipped" = Ok (JInt 1).
Proof.
  intros Hd Harts Hr Hx Hy.
  assert (is_record r) as [dr ->]%is_record_inv
    by (apply article_key_ok_iff; by eexists).
  rewrite article_key_record in Hr. injection Hr as Hr.
  assert (record_key x = "id:42") as Hkx.
  { unfold_key. unfold dict_get. by rewrite Hx. }
  assert (record_key y = "id:43") as Hky.
  { unfold_key. unfold dict_get. by rewrite Hy. }
  destruct (merge_loaded a response t d [dr] [x; y] Hd Harts)
    as (d' & Hrun & _ & Ha' & Hr').
  assert (unseen (list_to_set (map record_key [dr])) [x; y] = [y]) as Hsel.
  { cbn [map NewsdataClient.unseen]. rewrite Hr, Hkx, Hky.
    rewrite decide_True by set_solver.
    rewrite decide_False; [done|].
    rewrite elem_of_list_to_set, list_elem_of_singleton. discriminate. }
  rewrite Hsel in Hrun, Ha', Hr'.
  eexists d', _. split; [exact Hrun|].
  split; [exact Ha'|]. split; [exact Hr'|]. by split.
Qed.

(** C2.  Merging the same fetched records a second time adds nothing: the
    second merge counts no addition and skips every record of the list, and
    the articles sequence, hence its set of keys, is the one the first merge
    left. *)
Theorem merge_idempotent (a1 a2 : args) (response1 response2 : dict)
    (t1 t2 : string) (d : dict) (results : list json) :
  loaded_store d ->
  Forall is_record (articles_of d) ->
  Forall is_record results ->
  exists d1 n1 s1 d2,
    merge a1 response1 (JList results) t1 d = Ok (d1, n1, s1)
    /\ merge a2 response2 (JList results) t2 d1
       = Ok (d2, 0, Z.of_nat (length results))
    /\ key_set (articles_of d2) = key_set (articles_of d1)
    /\ articles_of d2 = articles_of d1.
Proof.
  intros Hd [arts Harts]%Forall_is_record [items ->]%Forall_is_record.
  destruct (merge_loaded a1 response1 t1 d arts items Hd Harts)
    as (d1 & Hrun1 & Hd1 & Ha1 & _).
  destruct (merge_loaded a2 response2 t2 d1 _ items Hd1 Ha1)
    as (d2 & Hrun2 & _ & Ha2 & _).
  set (sel := unseen (list_to_set (map record_key arts)) items) in *.
  assert (unseen (list_to_set (map record_key (arts ++ map (stamped a1 t1) sel)))
            items = []) as Hnone.
  { apply unseen_all_seen. intros x Hx.
    rewrite elem_of_list_to_set, map_app, elem_of_app, map_record_key_stamped.
    destruct (proj2 (unseen_keys_elem (list_to_set (map record_key arts)) items
                       (record_key x))) as [Hsel|Hold].
    + left. by apply list_elem_of_fmap_2.
    + by right.
    + left. by apply elem_of_list_to_set in Hold. }
  rewrite Hnone in Hrun2, Ha2. cbn [length map] in Hrun2, Ha2.
  rewrite app_nil_r in Ha2. rewrite Z.sub_0_r in Hrun2.
  eexists d1, _, _, d2. rewrite length_map.
  split; [exact Hrun1|]. split; [exact Hrun2|].
  rewrite Ha2, Ha1. by split.
Qed.

(** C6.  When no two records of the store have the same key, no two records
    of the store have the same key after the merge. *)
Theorem merge_keeps_keys_unique (a : args) (response : dict) (t : string)
    (d : dict) (results : list json) :
  loaded_store d ->
  Forall is_record (articles_of d) ->
  Forall is_record results ->
  unique_keys (articles_of d) ->
  exists d' n s,
    merge a response (JList results) t d = Ok (d', n, s)
    /\ unique_keys (articles_of d').
Proof.
  intros Hd [arts Harts]%Forall_is_record [items ->]%Forall_is_record Huniq.
  destruct (merge_loaded a response t d arts items Hd Harts)
    as (d' & Hrun & _ & Ha' & _).
  eexists d', _, _. split; [exact Hrun|].
  rewrite Ha'. rewrite Harts in Huniq.
  apply unique_keys_records. apply unique_keys_records in Huniq.
  rewrite map_app, map_record_key_stamped.
  apply NoDup_app. split; [done|]. split; [|apply unseen_NoDup].
  intros k Hk (x & -> & Hx)%list_elem_of_fmap.
  apply unseen_fresh in Hx. apply Hx. by apply elem_of_list_to_set.
Qed.

(** C7.  The articles sequence after the merge is the prior sequence, every
    record where it was, followed by the stamped copies of some of the
    fetched records in the order they were fetched; the request-audit
    sequence is the prior one followed by one record. *)
Theorem merge_append_only (a : args) (response : dict) (t : string)
    (d : dict) (results : list json) :
  loaded_store d ->
  Forall is_record (articles_of d) ->
  Forall is_record results ->
  exists d' n s (new : list dict) (audit : json),
    merge a response (JList results) t d = Ok (d', n, s)
    /\ sublist (map JDict new) results
    /\ articles_of d'
       = articles_of d ++ map (fun x => JDict (stamped a t x)) new
    /\ n = Z.of_nat (length new)
    /\ requests_of d' = requests_of d ++ [audit]
    /\ (forall i v, articles_of d !! i = Some v -> articles_of d' !! i = Some v)
    /\ (forall i v, requests_of d !! i = Some v -> requests_of d' !! i = Some v).
Proof.
  intros Hd [arts Harts]%Forall_is_record [items ->]%Forall_is_record.
  destruct (merge_loaded a response t d arts items Hd Harts)
    as (d' & Hrun & _ & Ha' & Hr').
  set (sel := unseen (list_to_set (map record_key arts)) items) in *.
  assert (articles_of d'
          = articles_of d ++ map (fun x => JDict (stamped a t x)) sel) as Happ.
  { by rewrite Ha', Harts, map_app, map_map. }
  eexists d', _, _, sel, _. split; [exact Hrun|].
  split; [apply (fmap_sublist JDict), unseen_sublist|].
  split; [exact Happ|]. split; [done|]. split; [exact Hr'|].
  split; intros i v Hi.
  - rewrite Happ. by apply lookup_app_l_Some.
  - rewrite Hr'. by apply lookup_app_l_Some.
Qed.

(** ** The claims about the key *)

Lemma key_tier_id (d : dict) : external_id d <> "" -> key_tier d = ById.
Proof.
  intros H. unfold NewsdataClient.key_tier. by rewrite bool_decide_eq_false_2.
Qed.

Lemma key_tier_link (d : dict) :
  external_id d = "" -> link_text d <> "" -> key_tier d = ByLink.
Proof.
  intros H1 H2. unfold NewsdataClient.key_tier.
  rewrite bool_decide_eq_true_2 by done. by rewrite bool_decide_eq_false_2.
Qed.

Lemma key_tier_fallback (d : dict) :
  external_id d = "" -> link_text d = "" -> key_tier d = ByFallback.
Proof.
  intros H1 H2. unfold NewsdataClient.key_tier.
  by rewrite !bool_decide_eq_true_2.
Qed.

(** C3.  [article_key] returns one key on every record, and the key is a
    function of the normalised fields of the rule that produces it: two
    records whose external identifiers are equal and not empty have the same
    key; so have two records with empty identifiers whose links are equal
    and not empty, and two records with empty identifiers and empty links
    whose titles, publication timestamps and sources are equal.  A field is
    read as [str(v or "").strip()], so equal raw fields are equal here. *)
Theorem article_key_deterministic (x y : dict) :
  (exists k, article_key (JDict x) = Ok k)
  /\ (x = y -> article_key (JDict x) = article_key (JDict y))
  /\ (external_id x <> "" -> external_id x = external_id y ->
      article_key (JDict x) = article_key (JDict y))
  /\ (external_id x = "" -> external_id y = "" ->
      link_text x <> "" -> link_text x = link_text y ->
      article_key (JDict x) = article_key (JDict y))
  /\ (external_id x = "" -> external_id y = "" ->
      link_text x = "" -> link_text y = "" ->
      title_text x = title_text y -> pub_date_text x = pub_date_text y ->
      source_text x = source_text y ->
      article_key (JDict x) = article_key (JDict y)).
Proof.
  rewrite !article_key_record. unfold NewsdataClient.record_key.
  split; [by eexists|]. split; [by intros ->|].
  split; [|split].
  - intros Hx Hxy. rewrite !key_tier_id by congruence. by rewrite Hxy.
  - intros Hx Hy Hl Hxy. rewrite !key_tier_link by congruence. by rewrite Hxy.
  - intros Hx Hy Hlx Hly Ht Hp Hs. rewrite !key_tier_fallback by done.
    by rewrite Ht, Hp, Hs.
Qed.

Lemma tier_prefixes_differ (s1 s2 : string) :
  "id:" +:+ s1 <> "link:" +:+ s2
  /\ "id:" +:+ s1 <> "fallback:" +:+ s2
  /\ "link:" +:+ s1 <> "fallback:" +:+ s2.
Proof. repeat split; discriminate. Qed.

(** C4.  Two records whose keys come from different rules of [article_key]
    never have the same key, whatever their fields hold. *)
Theorem tier_namespacing (x y : dict) :
  key_tier x <> key_tier y -> article_key (JDict x) <> article_key (JDict y).
Proof.
  intros Htier. rewrite !article_key_record. unfold NewsdataClient.record_key.
  intros [=Heq]. revert Htier Heq.
  destruct (key_tier x), (key_tier y); intros Htier Heq; try done;
    first [ by eapply tier_prefixes_differ
          | symmetry in Heq; by eapply tier_prefixes_differ ].
Qed.

(** ** The claim about elements that are no records *)

(** C8, as the code has it.  [article_key] returns a key exactly on the
    records (JSON objects) and raises [AttributeError] on every other
    element; a record that holds none of the fields the key reads gets the
    fallback key with three empty parts; and seeding the seen-key set
    succeeds exactly when every element of the articles sequence is a
    record. *)
Theorem article_key_on_records_only (v : json) (l : list json) (d : dict) :
  (is_ok (article_key v) <-> is_record v)
  /\ (~ is_record v -> article_key v = Raise AttributeError)
  /\ ((forall f, f ∈ key_fields -> dict_lookup f d = None) ->
      article_key (JDict d) = Ok "fallback:||")
  /\ (is_ok (seed_keys l) <-> Forall is_record l).
Proof.
  split; [apply article_key_ok_iff|].
  split; [apply article_key_not_record|].
  split; [|apply seed_keys_ok].
  intros Hnone. rewrite article_key_record.
  unfold_key. unfold dict_get.
  rewrite !Hnone; [done | compute_done ..].
Qed.

End Merge.

Section Loader.
Variable repr_str : string -> string.
Variable json_loads : string -> option json.
Variable json_dumps : json -> string.

(** ** The claims about the loader *)

Lemma coerce_list_lookup (k : string) (d : dict) :
  let d' := if is_list (dict_get k JNull d) then d
            else dict_set k (JList []) d in
  dict_lookup k d'
  = Some (JList match dict_lookup k d with Some (JList l) => l | _ => [] end)
  /\ (forall k', k <> k' -> dict_lookup k' d' = dict_lookup k' d).
Proof.
  unfold dict_get. destruct (dict_lookup k d) as [v|] eqn:E; simpl.
  - destruct v; simpl; rewrite ?E, ?dict_lookup_set_eq;
      (split; [done|]); intros k' Hk'; by rewrite ?dict_lookup_set_ne.
  - rewrite dict_lookup_set_eq. split; [done|].
    intros k' Hk'. by rewrite dict_lookup_set_ne.
Qed.

Lemma load_dump_object (path text : string) (data : dict) :
  py_strip text <> "" ->
  json_loads (py_strip text) = Some (JDict data) ->
  exists d,
    load_dump json_loads path (Content text) = Ok d
    /\ dict_lookup "schema_version" d
       = Some (default (JStr "1.0") (dict_lookup "schema_version" data))
    /\ dict_lookup "updated_at" d
       = Some (default JNull (dict_lookup "updated_at" data))
    /\ dict_lookup "articles" d = Some (JList (articles_of data))
    /\ dict_lookup "requests" d = Some (JList (requests_of data))
    /\ (forall k, k ∉ ["schema_version"; "updated_at"; "articles"; "requests"] ->
          dict_lookup k d = dict_lookup k data).
Proof.
  intros Hne Hloads. unfold load_dump. rewrite decide_False by done.
  rewrite Hloads.
  set (d1 := dict_setdefault "schema_version" (JStr "1.0") data).
  set (d2 := dict_setdefault "updated_at" JNull d1).
  set (d3 := dict_setdefault "articles" (JList []) d2).
  set (d4 := dict_setdefault "requests" (JList []) d3).
  destruct (coerce_list_lookup "articles" d4) as [Ha5 Hne5].
  set (d5 := if is_list (dict_get "articles" JNull d4) then d4
             else dict_set "articles" (JList []) d4) in *.
  destruct (coerce_list_lookup "requests" d5) as [Hr6 Hne6].
  set (d6 := if is_list (dict_get "requests" JNull d5) then d5
             else dict_set "requests" (JList []) d5) in *.
  exists d6. split; [done|].
  assert (dict_lookup "articles" d4
          = Some (default (JList []) (dict_lookup "articles" data))) as Ha4.
  { unfold d4, d3. rewrite dict_lookup_setdefault_ne by done.
    rewrite dict_lookup_setdefault_eq. unfold d2, d1.
    by rewrite !dict_lookup_setdefault_ne. }
  assert (dict_lookup "requests" d5
          = Some (default (JList []) (dict_lookup "requests" data))) as Hr5.
  { rewrite Hne5 by done. unfold d4. rewrite dict_lookup_setdefault_eq.
    unfold d3, d2, d1. by rewrite !dict_lookup_setdefault_ne. }
  split; [|split; [|split; [|split]]].
  - rewrite Hne6, Hne5 by done. unfold d4, d3, d2.
    rewrite !dict_lookup_setdefault_ne by done.
    apply dict_lookup_setdefault_eq.
  - rewrite Hne6, Hne5 by done. unfold d4, d3.
    rewrite !dict_lookup_setdefault_ne by done. unfold d2.
    rewrite dict_lookup_setdefault_eq. unfold d1.
    by rewrite dict_lookup_setdefault_ne.
  - rewrite Hne6 by done. rewrite Ha5, Ha4. unfold articles_of.
    by destruct (dict_lookup "articles" data) as [[]|].
  - rewrite Hr6, Hr5. unfold requests_of.
    by destruct (dict_lookup "requests" data) as [[]|].
  - intros k Hk.
    assert (k <> "schema_version" /\ k <> "updated_at" /\ k <> "articles"
            /\ k <> "requests") as (? & ? & ? & ?).
    { rewrite !elem_of_cons, elem_of_nil in Hk. tauto. }
    rewrite Hne6, Hne5 by done. unfold d4, d3, d2, d1.
    by rewrite !dict_lookup_setdefault_ne.
Qed.

Lemma load_dump_valid (path : string) (f : file_state) (d : dict) :
  load_dump json_loads path f = Ok d -> loaded_store d.
Proof.
  assert (loaded_store empty_dump) as Hempty by (split; by eexists).
  destruct f as [| | |text]; try done.
  - by intros [= <-].
  - intros Hload. destruct (decide (py_strip text = "")) as [Hs|Hs].
    + unfold load_dump in Hload. rewrite decide_True in Hload by done.
      by injection Hload as <-.
    + destruct (json_loads (py_strip text)) as [[]|] eqn:Hj;
        try (unfold load_dump in Hload;
             rewrite decide_False, Hj in Hload by done; done).
      * unfold load_dump in Hload. rewrite decide_False, Hj in Hload by done.
        injection Hload as <-. split; by eexists.
      * destruct (load_dump_object path text d0 Hs Hj)
          as (d' & Hd' & _ & _ & Ha & Hr & _).
        rewrite Hd' in Hload. injection Hload as <-. split; by eexists.
Qed.



End Loader.

(** ** The key on small inputs *)

Example article_key_of_number :
  article_key repr_ascii (JDict [("article_id", JInt 42)]) = Ok "id:42".
Proof. reflexivity. Qed.

(** An identifier of white space alone counts as empty. *)
Example article_key_blank_id :
  article_key repr_ascii
    (JDict [("article_id", JStr "  "); ("link", JStr " https://example.org/a ")])
  = Ok "link:https://example.org/a".
Proof. reflexivity. Qed.

Example article_key_fallback :
  article_key repr_ascii
    (JDict [("title", JStr "T"); ("published_at", JStr "2026-01-05");
            ("source_name", JStr "bbc")])
  = Ok "fallback:T|2026-01-05|bbc".
Proof. reflexivity. Qed.

Example article_key_of_list : article_key repr_ascii (JList []) = Raise AttributeError.
Proof. reflexivity. Qed.

Example load_dump_legacy_list :
  load_dump example_loads "dump.json" (Content "[{}, {}]
")
  = Ok [("schema_version", JStr "1.0"); ("updated_at", JNull);
        ("articles", JList [JDict []; JDict []]); ("requests", JList [])].
Proof. reflexivity. Qed.

(** A run over a corrupt output file fetches, fails to load, and leaves the
    file as it found it. *)
Example main_corrupt_store :
  main repr_ascii example_loads (fun _ => "") example_args
    (example_environment "{oops")
  = (Raise (SystemExit 1 "Failed to read or parse data/newsdata_dump.json"),
     Content "{oops").
Proof. reflexivity. Qed.

(** A run over a missing output file writes the two fetched records. *)
Example main_first_run :
  main repr_ascii example_loads (fun _ => "written") example_args
    {| env_api_key := Some "pub_example"; env_now := "2026-01-05T08:00:00Z";
       env_fetch := env_fetch (example_environment ""); env_file := Missing |}
  = (Ok "Saved 2 new article(s), skipped 0. Output: data/newsdata_dump.json",
     Content "written
").
Proof. reflexivity. Qed.

(** ** The claims on the example data *)

Lemma example_store_loaded : loaded_store example_store.
Proof. split; eexists; reflexivity. Qed.

Lemma example_store_records : Forall is_record (articles_of example_store).
Proof. repeat constructor. Qed.

Lemma example_results_records :
  Forall is_record [JDict example_item_42; JDict example_item_43].
Proof. repeat constructor. Qed.

Lemma merge_scenario_witness :
  exists d' audit,
    merge repr_ascii example_args example_response
      (JList [JDict example_item_42; JDict example_item_43])
      "2026-01-05T08:00:00Z" example_store
    = Ok (d', 1, 1)
    /\ articles_of d'
       = [JDict [("article_id", JStr "42"); ("title", JStr "Old")];
          JDict (stamped example_args "2026-01-05T08:00:00Z" example_item_43)]
    /\ requests_of d' = requests_of example_store ++ [audit]
    /\ py_get audit "added" = Ok (JInt 1)
    /\ py_get audit "skipped" = Ok (JInt 1).
Proof.
  apply (merge_scenario repr_ascii example_args example_response
           "2026-01-05T08:00:00Z" example_store
           (JDict [("article_id", JStr "42"); ("title", JStr "Old")])
           example_item_42 example_item_43).
  - exact example_store_loaded.
  - reflexivity.
  - reflexivity.
  - reflexivity.
  - reflexivity.
Defined.

Lemma merge_idempotent_witness :
  exists d1 n1 s1 d2,
    merge repr_ascii example_args example_response
      (JList [JDict example_item_42; JDict example_item_43])
      "2026-01-05T08:00:00Z" example_store
    = Ok (d1, n1, s1)
    /\ merge repr_ascii example_args example_response
         (JList [JDict example_item_42; JDict example_item_43])
         "2026-01-06T08:00:00Z" d1
       = Ok (d2, 0, 2)
    /\ key_set repr_ascii (articles_of d2) = key_set repr_ascii (articles_of d1)
    /\ articles_of d2 = articles_of d1.
Proof.
  apply (merge_idempotent repr_ascii example_args example_args
           example_response example_response
           "2026-01-05T08:00:00Z" "2026-01-06T08:00:00Z" example_store
           [JDict example_item_42; JDict example_item_43]).
  - exact example_store_loaded.
  - exact example_store_records.
  - exact example_results_records.
Defined.

Lemma article_key_deterministic_witness :
  article_key repr_ascii (JDict example_item_42)
  = article_key repr_ascii (JDict [("article_id", JStr " 42 "); ("link", JStr "x")])
  /\ article_key repr_ascii (JDict [("link", JStr "https://example.org/a")])
     = article_key repr_ascii
         (JDict [("article_id", JNull); ("link", JStr "https://example.org/a");
                 ("title", JStr "T")])
  /\ article_key repr_ascii
       (JDict [("title", JStr "T"); ("pubDate", JStr "2026-01-05");
               ("source_id", JStr "bbc")])
     = article_key repr_ascii
         (JDict [("title", JStr "T"); ("published_at", JStr "2026-01-05");
                 ("source_name", JStr "bbc"); ("description", JStr "other")]).
Proof.
  split; [|split].
  - destruct (article_key_deterministic repr_ascii example_item_42
                [("article_id", JStr " 42 "); ("link", JStr "x")])
      as (_ & _ & Hid & _).
    apply Hid.
    + vm_compute. discriminate.
    + reflexivity.
  - destruct (article_key_deterministic repr_ascii
                [("link", JStr "https://example.org/a")]
                [("article_id", JNull); ("link", JStr "https://example.org/a");
                 ("title", JStr "T")])
      as (_ & _ & _ & Hlink & _).
    apply Hlink.
    + reflexivity.
    + reflexivity.
    + vm_compute. discriminate.
    + reflexivity.
  - destruct (article_key_deterministic repr_ascii
                [("title", JStr "T"); ("pubDate", JStr "2026-01-05");
                 ("source_id", JStr "bbc")]
                [("title", JStr "T"); ("published_at", JStr "2026-01-05");
                 ("source_name", JStr "bbc"); ("description", JStr "other")])
      as (_ & _ & _ & _ & Hfall).
    apply Hfall; reflexivity.
Defined.

Lemma tier_namespacing_witness :
  article_key repr_ascii (JDict example_item_42)
  <> article_key repr_ascii (JDict [("link", JStr "42")]).
Proof.
  apply (tier_namespacing repr_ascii example_item_42 [("link", JStr "42")]).
  vm_compute. discriminate.
Defined.


Lemma merge_keeps_keys_unique_witness :
  exists d' n s,
    merge repr_ascii example_args example_response
      (JList [JDict example_item_42; JDict example_item_43])
      "2026-01-05T08:00:00Z" example_store
    = Ok (d', n, s)
    /\ unique_keys repr_ascii (articles_of d').
Proof.
  apply (merge_keeps_keys_unique repr_ascii example_args example_response
           "2026-01-05T08:00:00Z" example_store
           [JDict example_item_42; JDict example_item_43]).
  - exact example_store_loaded.
  - exact example_store_records.
  - exact example_results_records.
  - apply (unique_keys_records repr_ascii
             [[("article_id", JStr "42"); ("title", JStr "Old")]]).
    apply NoDup_singleton.
Defined.

Lemma merge_append_only_witness :
  exists d' n s (new : list dict) (audit : json),
    merge repr_ascii example_args example_response
      (JList [JDict example_item_42; JDict example_item_43])
      "2026-01-05T08:00:00Z" example_store
    = Ok (d', n, s)
    /\ sublist (map JDict new) [JDict example_item_42; JDict example_item_43]
    /\ articles_of d'
       = articles_of example_store
         ++ map (fun x => JDict (stamped example_args "2026-01-05T08:00:00Z" x)) new
    /\ n = Z.of_nat (length new)
    /\ requests_of d' = requests_of example_store ++ [audit]
    /\ (forall i v, articles_of example_store !! i = Some v ->
                    articles_of d' !! i = Some v)
    /\ (forall i v, requests_of example_store !! i = Some v ->
                    requests_of d' !! i = Some v).
Proof.
  apply (merge_append_only repr_ascii example_args example_response
           "2026-01-05T08:00:00Z" example_store
           [JDict example_item_42; JDict example_item_43]).
  - exact example_store_loaded.
  - exact example_store_records.
  - exact example_results_records.
Defined.

(** C8, as the claim states it, fails on a store that holds a bare string:
    [article_key] calls [item.get], which a [str] does not have, and the
    loop that seeds the seen keys stops on the exception.  A file that is a
    JSON list of one string loads as such a store, and the run over it ends
    with the exception, the file untouched. *)
Lemma bare_string_has_no_key :
  article_key repr_ascii (JStr "headline") = Raise AttributeError
  /\ seed_keys repr_ascii [JDict example_item_42; JStr "headline"]
     = Raise AttributeError
  /\ load_dump example_loads "dump.json" (Content example_bare_text)
     = Ok [("schema_version", JStr "1.0"); ("updated_at", JNull);
           ("articles", JList [JStr "headline"]); ("requests", JList [])]
  /\ main repr_ascii example_loads (fun _ => "") example_args
       (example_environment example_bare_text)
     = (Raise AttributeError, Content example_bare_text)
  /\ ~ (forall v : json, is_ok (article_key repr_ascii v))
  /\ ~ (forall l : list json, is_ok (seed_keys repr_ascii l)).
Proof.
  split; [reflexivity|]. split; [reflexivity|].
  split; [reflexivity|]. split; [reflexivity|]. split.
  - intros H. by destruct (H (JStr "headline")).
  - intros H. by destruct (H [JDict example_item_42; JStr "headline"]).
Qed.

Lemma article_key_on_records_only_witness :
  (is_ok (article_key repr_ascii (JDict example_item_42)))
  /\ article_key repr_ascii (JInt 7) = Raise AttributeError
  /\ article_key repr_ascii (JDict [("description", JStr "text")])
     = Ok "fallback:||"
  /\ is_ok (seed_keys repr_ascii [JDict example_item_42; JDict example_item_43]).
Proof.
  split; [|split; [|split]].
  - destruct (article_key_on_records_only repr_ascii (JDict example_item_42)
                [] []) as (Hrec & _).
    apply Hrec. exact I.
  - destruct (article_key_on_records_only repr_ascii (JInt 7) [] [])
      as (_ & Hother & _).
    apply Hother. simpl. tauto.
  - destruct (article_key_on_records_only repr_ascii JNull []
                [("description", JStr "text")]) as (_ & _ & Hnone & _).
    apply Hnone. intros f Hf. unfold key_fields in Hf.
    repeat (apply elem_of_cons in Hf as [->|Hf]; [reflexivity|]).
    by apply elem_of_nil in Hf.
  - destruct (article_key_on_records_only repr_ascii JNull
                [JDict example_item_42; JDict example_item_43] [])
      as (_ & _ & _ & Hseed).
    apply Hseed. exact example_results_records.
Defined.

End NewsdataProps.

(** ** The RSS digest *)

Module RssProps.
Import Py PyFacts RssOpenaiDigest.

Lemma dict_get_nonempty (k : string) (s : string) (d : dict) :
  dict_get k JNull d = JStr s -> py_truthy (JDict d) = true.
Proof. by destruct d. Qed.

Lemma mapping_step_readable (mapping : gmap string json) (r : dict) :
  hashable_key (dict_get "id" JNull r) ->
  exists mapping',
    mapping_step mapping (JDict r) = Ok mapping'
    /\ forall k, mapping' !! k
         = if decide (k = "") then mapping !! k
           else if py_eq_str (dict_get "id" JNull r) k then Some (JDict r)
           else mapping !! k.
Proof.
  intros Hhash. unfold mapping_step. cbn [py_get mbind result_bind].
  destruct (dict_get "id" JNull r) as [| b | n | f | s | [|x l] | [|x l]] eqn:Hid;
    cbn [py_truthy py_eq_str] in *; try done;
    try (eexists; split; [try destruct b; try destruct (negb _); reflexivity|];
         intros k; by destruct (decide (k = ""))).
  destruct (decide (s = "")) as [->|Hs].
  - eexists. split; [reflexivity|]. intros k.
    destruct (decide (k = "")) as [->|Hk]; [done|].
    by rewrite bool_decide_eq_false_2.
  - rewrite bool_decide_eq_false_2 by done. cbn [negb].
    eexists. split; [reflexivity|]. intros k.
    destruct (decide (k = "")) as [->|Hk].
    + by rewrite lookup_insert_ne.
    + destruct (decide (s = k)) as [->|Hsk].
      * by rewrite bool_decide_eq_true_2, lookup_insert_eq.
      * by rewrite bool_decide_eq_false_2, lookup_insert_ne.
Qed.

Lemma mapping_loop_readable (entries : list dict) :
  Forall (fun r => hashable_key (dict_get "id" JNull r)) entries ->
  forall mapping : gmap string json,
  exists mapping',
    for_each mapping_step mapping (map JDict entries) = Ok mapping'
    /\ forall k, mapping' !! k
         = match reply_for k entries with
           | Some r => Some (JDict r)
           | None => mapping !! k
           end.
Proof.
  unfold reply_for.
  induction 1 as [|r entries Hr _ IH]; intros mapping.
  - exists mapping. split; [done|]. intros k. by destruct (decide (k = "")).
  - cbn [map for_each].
    destruct (mapping_step_readable mapping r Hr) as (m1 & -> & Hm1).
    cbn [mbind result_bind].
    destruct (IH m1) as (m2 & -> & Hm2).
    exists m2. split; [done|]. intros k. rewrite Hm2, Hm1.
    cbn [last_with_id].
    destruct (decide (k = "")); [done|].
    destruct (last_with_id k entries); [done|].
    by destruct (py_eq_str _ k).
Qed.

Lemma build_mapping_readable (parsed : json) (entries : list dict) :
  readable_reply parsed entries ->
  exists mapping,
    build_mapping parsed = Ok mapping
    /\ forall k, mapping !! k = JDict <$> reply_for k entries.
Proof.
  intros (d & -> & Hitems & Hhash).
  destruct (mapping_loop_readable entries Hhash ∅) as (m & Hrun & Hm).
  exists m. split.
  - unfold build_mapping. cbn [py_get mbind result_bind].
    rewrite Hitems. cbn [py_iter mbind result_bind]. exact Hrun.
  - intros k. rewrite Hm, lookup_empty. by destruct (reply_for k entries).
Qed.

Lemma last_with_id_has_id (k : string) (entries : list dict) (r : dict) :
  last_with_id k entries = Some r -> dict_get "id" JNull r = JStr k.
Proof.
  induction entries as [|r0 entries IH]; [done|]. cbn [last_with_id].
  destruct (last_with_id k entries) as [r'|].
  - intros [= ->]. by apply IH.
  - destruct (dict_get "id" JNull r0) as [| | | |s| |] eqn:Hid; try done.
    cbn [py_eq_str]. case_bool_decide; [|done]. intros [= <-]. congruence.
Qed.

Lemma augment_item_readable (mapping : gmap string json) (entries : list dict)
    (it : item) :
  (forall k, mapping !! k = JDict <$> reply_for k entries) ->
  augment_item mapping it = Ok (augmented entries it).
Proof.
  intros Hm. unfold augment_item, augmented. rewrite Hm.
  destruct (reply_for (id it) entries) as [r|] eqn:Hr; [|done].
  cbn [fmap option_fmap option_map].
  unfold reply_for in Hr. destruct (decide (id it = "")); [done|].
  apply last_with_id_has_id in Hr.
  by rewrite (dict_get_nonempty _ _ _ Hr).
Qed.

Lemma augment_readable (parsed : json) (entries : list dict) (its : list item) :
  readable_reply parsed entries ->
  augment parsed its = Ok (map (augmented entries) its).
Proof.
  intros Hreply.
  destruct (build_mapping_readable parsed entries Hreply) as (m & Hm & Hlook).
  unfold augment. rewrite Hm. cbn [mbind result_bind].
  induction its as [|it its IH]; [done|].
  cbn [augment_items map]. rewrite (augment_item_readable m entries it Hlook).
  cbn [mbind result_bind]. by rewrite IH.
Qed.

(** *** The replies the summarisation cannot read *)

Lemma code_points_nonempty (s : string) : s <> "" -> code_points s <> [].
Proof.
  destruct s as [|a r]; [done|]. intros _. unfold code_points.
  cbn [code_points_go]. destruct (code_points_go r) as [pending acc].
  destruct (byte_in 128 191 a).
  - by rewrite decide_False.
  - by rewrite decide_True.
Qed.

Lemma mapping_step_ok_inv (mapping : gmap string json) (x : json) :
  is_ok (mapping_step mapping x) ->
  exists r, x = JDict r /\ hashable_key (dict_get "id" JNull r).
Proof.
  intros [m Hm]. destruct x as [| | | | | |r]; try done.
  exists r. split; [done|].
  unfold mapping_step in Hm. cbn [py_get mbind result_bind] in Hm.
  by destruct (dict_get "id" JNull r) as [| | | | |[|]|[|]].
Qed.

Lemma mapping_loop_ok_inv (l : list json) :
  forall mapping : gmap string json,
    is_ok (for_each mapping_step mapping l) ->
    exists entries,
      l = map JDict entries
      /\ Forall (fun r => hashable_key (dict_get "id" JNull r)) entries.
Proof.
  induction l as [|x l IH]; intros mapping [m Hm].
  - by exists [].
  - cbn [for_each] in Hm.
    destruct (mapping_step mapping x) as [m1|e] eqn:Hstep; [|done].
    destruct (mapping_step_ok_inv mapping x) as (r & -> & Hr); [by eexists|].
    destruct (IH m1) as (entries & -> & Hall); [by eexists|].
    exists (r :: entries). split; [done|]. by constructor.
Qed.

Lemma build_mapping_ok_inv (parsed : json) :
  is_ok (build_mapping parsed) -> exists entries, readable_reply parsed entries.
Proof.
  intros [m Hm]. destruct parsed as [| | | | | |d]; try done.
  unfold build_mapping in Hm. cbn [py_get mbind result_bind] in Hm.
  destruct (py_iter (py_or (dict_get "items" JNull d) (JList []))) as [l|e]
    eqn:Hiter; [|done].
  cbn [mbind result_bind] in Hm.
  destruct (mapping_loop_ok_inv l ∅) as (entries & -> & Hall); [by eexists|].
  exists entries, d. split; [done|]. split; [|done].
  unfold py_or in *.
  destruct (py_truthy (dict_get "items" JNull d)) eqn:Htrue.
  - destruct (dict_get "items" JNull d) as [| | | |s|l|[|[k v] d']];
      try done; cbn [py_iter] in Hiter.
    + injection Hiter as Hs. cbn [py_truthy] in Htrue.
      destruct (code_points s) as [|c cs] eqn:Hcs.
      * apply code_points_nonempty in Hcs; [done|].
        intros ->. by rewrite bool_decide_eq_true_2 in Htrue.
      * by destruct entries.
    + by injection Hiter as ->.
    + injection Hiter as Hd. by destruct entries.
  - cbn [py_iter] in Hiter. by injection Hiter as ->.
Qed.

Lemma augment_ok_iff (parsed : json) (its : list item) :
  is_ok (augment parsed its) <-> exists entries, readable_reply parsed entries.
Proof.
  split.
  - intros [its' Hrun]. apply build_mapping_ok_inv.
    unfold augment in Hrun. destruct (build_mapping parsed); [by eexists|done].
  - intros [entries Hreply]. rewrite (augment_readable _ _ _ Hreply). by eexists.
Qed.

Lemma reply_for_None (k : string) (entries : list dict) :
  reply_for k entries = None
  <-> k = "" \/ Forall (fun r => dict_get "id" JNull r <> JStr k) entries.
Proof.
  unfold reply_for. destruct (decide (k = "")) as [->|Hk]; [tauto|].
  split.
  - intros Hnone. right.
    induction entries as [|r entries IH]; [constructor|].
    cbn [last_with_id] in Hnone.
    destruct (last_with_id k entries); [done|].
    constructor; [|by apply IH].
    intros Hid. rewrite Hid in Hnone. cbn [py_eq_str] in Hnone.
    by rewrite bool_decide_eq_true_2 in Hnone.
  - intros [?|Hall]; [done|].
    induction Hall as [|r entries Hr _ IH]; [done|].
    cbn [last_with_id]. rewrite IH.
    destruct (dict_get "id" JNull r); try done.
    cbn [py_eq_str]. rewrite bool_decide_eq_false_2; [done|]. congruence.
Qed.

Section Digest.
Variable repr_str : string -> string.
Variable sha1_hexdigest : string -> string.
Variable html_text : string -> string.
Variable html_unescape : string -> string.

Local Abbreviation main := (main repr_str sha1_hexdigest html_text html_unescape).
Local Abbreviation collect :=
  (collect repr_str sha1_hexdigest html_text html_unescape).
Local Abbreviation entry_item :=
  (entry_item repr_str sha1_hexdigest html_text html_unescape).

(** The run once the items are collected, when the summarisation is asked
    for and the language model has replied with [parsed]. *)
Lemma main_summarizing (a : args) (w : environment) (feeds : list feed)
    (parsed rid use : json) :
  feeds <> [] -> items (collect a w feeds) <> [] ->
  skip_openai a = false -> default "" (env_openai_key w) <> "" ->
  env_openai w (chosen_model a w) (items (collect a w feeds))
  = inr (parsed, rid, use) ->
  main a w feeds
  = (its' ← augment parsed (items (collect a w feeds));
     Ok {| schema_version := "1.0"; generated_at := env_now w;
           catalog_path := catalog a;
           request := (max_sources a, feeds_per_source a,
                       max_items_per_feed a, source_ids a);
           openai := Some {| model := chosen_model a w; response_id := rid;
                             usage := use |};
           output_items := its';
           output_errors := errors (collect a w feeds) |}).
Proof.
  intros Hfeeds Hne Hskip Hkey Hcall. unfold RssOpenaiDigest.main.
  rewrite bool_decide_eq_false_2 by done.
  unfold summarize. rewrite bool_decide_eq_false_2 by done.
  rewrite Hskip. cbn [orb]. rewrite decide_False by done.
  fold (chosen_model a w). rewrite Hcall.
  by destruct (augment parsed (items (collect a w feeds))).
Qed.

(** C9, as the code has it.  The summarisation completes exactly when the
    reply is an object whose [items] is absent or falsy, or a list of
    objects with ids that can be dictionary keys.  It then gives every item
    whose id is the id of an entry of the reply [ai_summary] and [ai_tags]
    from the last such entry (its [summary], and its [tags] or the empty
    list) and leaves every other item as it was, and the run returns the
    document with these items; on any other reply the run ends with the
    exception the summarisation raised.  [reply_for] finds no entry exactly
    when the id is empty or no entry carries it ([reply_for_None]). *)
Theorem partial_summarization (parsed : json) (its : list item) :
  (is_ok (augment parsed its) <-> exists entries, readable_reply parsed entries)
  /\ (forall entries, readable_reply parsed entries ->
        exists its',
          augment parsed its = Ok its'
          /\ length its' = length its
          /\ (forall i it, its !! i = Some it ->
                match reply_for (id it) entries with
                | Some r =>
                    its' !! i
                    = Some (set_ai it (dict_get "summary" JNull r)
                                   (py_or (dict_get "tags" JNull r) (JList [])))
                | None => its' !! i = Some it
                end))
  /\ (forall a w feeds rid use,
        feeds <> [] -> items (collect a w feeds) = its -> its <> [] ->
        skip_openai a = false -> default "" (env_openai_key w) <> "" ->
        env_openai w (chosen_model a w) its = inr (parsed, rid, use) ->
        match augment parsed its with
        | Ok its' => exists out, main a w feeds = Ok out /\ output_items out = its'
        | Raise e => main a w feeds = Raise e
        end).
Proof.
  split; [apply augment_ok_iff|]. split.
  - intros entries Hreply. exists (map (augmented entries) its).
    split; [by apply augment_readable|]. split; [apply length_map|].
    intros i it Hi. apply (list_lookup_fmap_Some_2 (augmented entries)) in Hi.
    unfold augmented in Hi at 2.
    by destruct (reply_for (id it) entries).
  - intros a w feeds rid use Hfeeds <- Hne Hskip Hkey Hcall.
    rewrite (main_summarizing a w feeds parsed rid use) by done.
    destruct (augment parsed (items (collect a w feeds))); [|done].
    by eexists.
Qed.


End Digest.

(** ** The digest on small inputs *)

Example compact_text_short : compact_text " a   b " 200 = "a b".
Proof. reflexivity. Qed.

Example compact_text_cut : compact_text "abcdefghij" 5 = "ab...".
Proof. reflexivity. Qed.

Example dedupe_key_title :
  dedupe_key {| id := "0123456789ab"; title := "Story"; link := ""; summary := "";
                published := ""; source_id := JNull; source_name := JNull;
                item_feed_name := JNull; item_feed_url := JNull;
                topic_tags := JList []; fetched_at := None;
                ai_summary := None; ai_tags := None |}
  = "Story".
Proof. reflexivity. Qed.

(** An id that is a number is recorded under a key no item id equals. *)
Example augment_number_id :
  augment (JDict [("items", JList [JDict [("id", JInt 7)]])]) example_items
  = Ok example_items.
Proof. reflexivity. Qed.

(** An id that is a list cannot be a dictionary key. *)
Example augment_list_id :
  augment (JDict [("items", JList [JDict [("id", JList [JInt 7])]])]) example_items
  = Raise TypeError.
Proof. reflexivity. Qed.

(** ** The claims on the example data *)

Lemma example_reply_readable :
  readable_reply example_reply
    [[("id", JStr "aaaaaaaaaaaa"); ("summary", JStr "One.");
      ("tags", JList [JStr "x"; JStr "y"; JStr "z"])];
     [("id", JStr "cccccccccccc"); ("summary", JStr "Three.")]].
Proof.
  eexists. split; [reflexivity|]. split; [reflexivity|].
  repeat constructor.
Qed.

(** C9, as the claim states it, fails on a reply whose [items] holds a
    string: [result_item.get] raises [AttributeError] while the entries are
    collected, and the run ends there, before anything is written. *)
Lemma malformed_reply_fails :
  augment example_bad_reply example_items = Raise AttributeError
  /\ main repr_ascii example_digest example_html example_html example_args
       (example_environment example_bad_reply) [example_feed]
     = Raise AttributeError
  /\ ~ (forall (parsed : json) (its : list item), is_ok (augment parsed its)).
Proof.
  split; [reflexivity|]. split; [vm_compute; reflexivity|].
  intros H. by destruct (H example_bad_reply example_items).
Qed.

Lemma partial_summarization_witness :
  exists its',
    augment example_reply example_items = Ok its'
    /\ length its' = 3%nat
    /\ its' !! 0%nat
       = Some (set_ai (example_item "aaaaaaaaaaaa" "First") (JStr "One.")
                      (JList [JStr "x"; JStr "y"; JStr "z"]))
    /\ its' !! 1%nat = Some (example_item "bbbbbbbbbbbb" "Second")
    /\ its' !! 2%nat
       = Some (set_ai (example_item "cccccccccccc" "Third") (JStr "Three.")
                      (JList [])).
Proof.
  destruct (partial_summarization repr_ascii example_digest example_html
              example_html example_reply example_items)
    as (_ & Hreadable & _).
  destruct (Hreadable _ example_reply_readable) as (its' & Hrun & Hlen & Hitem).
  exists its'. split; [exact Hrun|]. split; [exact Hlen|].
  split; [|split].
  - exact (Hitem 0%nat _ eq_refl).
  - exact (Hitem 1%nat _ eq_refl).
  - exact (Hitem 2%nat _ eq_refl).
Defined.

End RssProps.

(** * Further properties of the news store *)

Module NewsdataMore.
Import Py PyFacts NewsdataClient NewsdataExamples NewsdataProps.

Section Merge.
Variable repr_str : string -> string.

Local Abbreviation article_key := (article_key repr_str).
Local Abbreviation record_key := (record_key repr_str).
Local Abbreviation merge := (merge repr_str).
Local Abbreviation unseen := (unseen repr_str).
Local Abbreviation key_set := (key_set repr_str).

(** What a merge that returned has done, by the records involved. *)
Lemma merge_inv (a : args) (response : dict) (t : string) (d : dict)
    (results : list json) (d' : dict) (n s : Z) :
  loaded_store d ->
  merge a response (JList results) t d = Ok (d', n, s) ->
  exists arts items,
    articles_of d = map JDict arts
    /\ results = map JDict items
    /\ n = Z.of_nat (length (unseen (list_to_set (map record_key arts)) items))
    /\ s = Z.of_nat (length items)
           - Z.of_nat (length (unseen (list_to_set (map record_key arts)) items))
    /\ articles_of d'
       = map JDict arts
         ++ map (fun x => JDict (stamped a t x))
                (unseen (list_to_set (map record_key arts)) items)
    /\ requests_of d'
       = requests_of d
         ++ [request_record a response t (Z.of_nat (length items)) n s]
    /\ dict_lookup "updated_at" d' = Some (JStr t)
    /\ (forall k, k <> "articles" -> k <> "requests" -> k <> "updated_at" ->
          dict_lookup k d' = dict_lookup k d).
Proof.
  intros Hd Hrun.
  destruct (proj1 (merge_ok_iff repr_str a response t d results Hd))
    as [[arts Harts]%Forall_is_record [items ->]%Forall_is_record];
    [by eexists|].
  destruct (loaded_store_inv d Hd) as [Ha Hr]. rewrite Harts in Ha.
  destruct (merge_records repr_str a response t d arts items (requests_of d) Ha Hr)
    as (d1 & Hrun1 & Ha1 & Hr1 & Hu1 & Hk1).
  rewrite Hrun1 in Hrun. injection Hrun as -> <- <-.
  exists arts, items. unfold articles_of at 2, requests_of at 1.
  rewrite Ha1, Hr1. by repeat split.
Qed.

(** X1.  Every fetched element is either added or skipped: the two counters
    are not negative and add up to the number of fetched elements, and the
    request record appended last carries these three numbers. *)
Theorem merge_counts (a : args) (response : dict) (t : string) (d : dict)
    (results : list json) (d' : dict) (n s : Z) :
  loaded_store d ->
  merge a response (JList results) t d = Ok (d', n, s) ->
  0 <= n /\ 0 <= s /\ n + s = Z.of_nat (length results)
  /\ exists audit,
       last (requests_of d') = Some audit
       /\ py_get audit "results_count" = Ok (JInt (Z.of_nat (length results)))
       /\ py_get audit "added" = Ok (JInt n)
       /\ py_get audit "skipped" = Ok (JInt s).
Proof.
  intros Hd Hrun.
  destruct (merge_inv a response t d results d' n s Hd Hrun)
    as (arts & items & _ & -> & Hn & Hs & _ & Hreq & _).
  pose proof (unseen_length repr_str (list_to_set (map record_key arts)) items).
  rewrite length_map. split; [lia|]. split; [lia|]. split; [lia|].
  eexists. split; [rewrite Hreq; apply last_snoc|]. by repeat split.
Qed.

(** X2.  The merge sets [updated_at] to the fetch time whether or not a
    record was added, and leaves every top-level field of the store other
    than [articles], [requests] and [updated_at] as it was. *)
Theorem merge_frame (a : args) (response : dict) (t : string) (d : dict)
    (results : list json) (d' : dict) (n s : Z) :
  loaded_store d ->
  merge a response (JList results) t d = Ok (d', n, s) ->
  dict_lookup "updated_at" d' = Some (JStr t)
  /\ (forall k, k <> "articles" -> k <> "requests" -> k <> "updated_at" ->
        dict_lookup k d' = dict_lookup k d)
  /\ length (requests_of d') = S (length (requests_of d)).
Proof.
  intros Hd Hrun.
  destruct (merge_inv a response t d results d' n s Hd Hrun)
    as (arts & items & _ & _ & _ & _ & _ & Hreq & Hup & Hk).
  split; [done|]. split; [done|].
  rewrite Hreq, length_app. simpl. lia.
Qed.

Lemma unseen_key_set (keys : gset string) (items : list dict) :
  list_to_set (map record_key (unseen keys items))
  = (list_to_set (map record_key items) : gset string) ∖ keys.
Proof.
  apply set_eq. intros k.
  rewrite elem_of_difference, !elem_of_list_to_set. split.
  - intros Hk. split.
    + destruct (proj1 (unseen_keys_elem repr_str keys items k)) as [?|Hin];
        [by left|done|].
      apply list_elem_of_fmap in Hk as (x & -> & Hx).
      by apply unseen_fresh in Hx.
    + apply list_elem_of_fmap in Hk as (x & -> & Hx).
      by apply unseen_fresh in Hx.
  - intros [Hk Hnew].
    by destruct (proj2 (unseen_keys_elem repr_str keys items k)) as [?|?];
      [by left| |].
Qed.

(** X3.  After the merge the keys of the store are the keys it had and the
    keys of the fetched records, and the add counter is the number of
    distinct keys among the fetched records that the store did not have. *)
Theorem merge_key_coverage (a : args) (response : dict) (t : string)
    (d : dict) (results : list json) (d' : dict) (n s : Z) :
  loaded_store d ->
  merge a response (JList results) t d = Ok (d', n, s) ->
  key_set (articles_of d') = key_set (articles_of d) ∪ key_set results
  /\ n = Z.of_nat (base.size (key_set results ∖ key_set (articles_of d))).
Proof.
  intros Hd Hrun.
  destruct (merge_inv a response t d results d' n s Hd Hrun)
    as (arts & items & Harts & -> & -> & _ & Ha' & _).
  rewrite Harts, Ha'.
  replace (map (fun x => JDict (stamped a t x))
               (unseen (list_to_set (map record_key arts)) items))
    with (map JDict (map (stamped a t)
               (unseen (list_to_set (map record_key arts)) items)))
    by apply map_map.
  rewrite <- map_app, !key_set_records.
  rewrite map_app, map_record_key_stamped, list_to_set_app_L.
  rewrite <- unseen_key_set. split.
  - rewrite (comm_L (∪)), unseen_keys. apply (comm_L (∪)).
  - rewrite size_list_to_set by apply unseen_NoDup. by rewrite length_map.
Qed.

(** X4.  Every record the merge appends is one of the fetched records with
    [fetched_at] set to the fetch time and [query_params] to the parameters
    of the request, whatever it held there before; its other fields and its
    key are those of the fetched record. *)
Theorem merge_new_records (a : args) (response : dict) (t : string)
    (d : dict) (results : list json) (d' : dict) (n s : Z) (i : nat) (v : json) :
  loaded_store d ->
  merge a response (JList results) t d = Ok (d', n, s) ->
  (length (articles_of d) <= i)%nat ->
  articles_of d' !! i = Some v ->
  exists x,
    x ∈ results
    /\ py_get v "fetched_at" = Ok (JStr t)
    /\ py_get v "query_params" = Ok (query_params a)
    /\ (forall k, k <> "fetched_at" -> k <> "query_params" ->
          py_get v k = py_get x k)
    /\ article_key v = article_key x.
Proof.
  intros Hd Hrun Hi Hv.
  destruct (merge_inv a response t d results d' n s Hd Hrun)
    as (arts & items & Harts & -> & _ & _ & Ha' & _).
  rewrite Ha', <- Harts in Hv. rewrite lookup_app_r in Hv by done.
  apply list_lookup_fmap_Some_1 in Hv as (x & -> & Hx).
  apply list_elem_of_lookup_2 in Hx.
  exists (JDict x). split.
  { apply list_elem_of_fmap_2.
    eapply elem_of_sublist; [done|apply unseen_sublist]. }
  unfold stamped. cbn [py_get]. unfold dict_get.
  split; [by rewrite dict_lookup_set_ne, dict_lookup_set_eq|].
  split; [by rewrite dict_lookup_set_eq|]. split.
  - intros k Hk1 Hk2. by rewrite !dict_lookup_set_ne.
  - fold (stamped a t x). by rewrite !article_key_record, record_key_stamped.
Qed.

End Merge.

(** ** The further properties on the example store *)

Lemma merge_counts_witness :
  0 <= 1 /\ 0 <= 1 /\ 1 + 1 = Z.of_nat 2
  /\ exists audit,
       last (requests_of example_merged) = Some audit
       /\ py_get audit "results_count" = Ok (JInt (Z.of_nat 2))
       /\ py_get audit "added" = Ok (JInt 1)
       /\ py_get audit "skipped" = Ok (JInt 1).
Proof.
  apply (merge_counts repr_ascii example_args example_response
           "2026-01-05T08:00:00Z" example_store
           [JDict example_item_42; JDict example_item_43] example_merged 1 1).
  - exact example_store_loaded.
  - vm_compute. reflexivity.
Defined.

Lemma merge_frame_witness :
  dict_lookup "updated_at" example_merged = Some (JStr "2026-01-05T08:00:00Z")
  /\ (forall k, k <> "articles" -> k <> "requests" -> k <> "updated_at" ->
        dict_lookup k example_merged = dict_lookup k example_store)
  /\ length (requests_of example_merged) = S (length (requests_of example_store)).
Proof.
  apply (merge_frame repr_ascii example_args example_response
           "2026-01-05T08:00:00Z" example_store
           [JDict example_item_42; JDict example_item_43] example_merged 1 1).
  - exact example_store_loaded.
  - vm_compute. reflexivity.
Defined.

Lemma merge_key_coverage_witness :
  key_set repr_ascii (articles_of example_merged)
  = key_set repr_ascii (articles_of example_store)
    ∪ key_set repr_ascii [JDict example_item_42; JDict example_item_43]
  /\ 1 = Z.of_nat
           (base.size
              (key_set repr_ascii [JDict example_item_42; JDict example_item_43]
               ∖ key_set repr_ascii (articles_of example_store))).
Proof.
  apply (merge_key_coverage repr_ascii example_args example_response
           "2026-01-05T08:00:00Z" example_store
           [JDict example_item_42; JDict example_item_43] example_merged 1 1).
  - exact example_store_loaded.
  - vm_compute. reflexivity.
Defined.

Lemma merge_new_records_witness :
  exists x,
    x ∈ [JDict example_item_42; JDict example_item_43]
    /\ py_get (JDict (stamped example_args "2026-01-05T08:00:00Z" example_item_43))
         "fetched_at" = Ok (JStr "2026-01-05T08:00:00Z")
    /\ py_get (JDict (stamped example_args "2026-01-05T08:00:00Z" example_item_43))
         "query_params" = Ok (query_params example_args)
    /\ (forall k, k <> "fetched_at" -> k <> "query_params" ->
          py_get (JDict (stamped example_args "2026-01-05T08:00:00Z" example_item_43)) k
          = py_get x k)
    /\ article_key repr_ascii
         (JDict (stamped example_args "2026-01-05T08:00:00Z" example_item_43))
       = article_key repr_ascii x.
Proof.
  apply (merge_new_records repr_ascii example_args example_response
           "2026-01-05T08:00:00Z" example_store
           [JDict example_item_42; JDict example_item_43] example_merged 1 1
           1%nat).
  - exact example_store_loaded.
  - vm_compute. reflexivity.
  - simpl. lia.
  - reflexivity.
Defined.

End NewsdataMore.

(** * Code points *)

Module StringFacts.
Import Py Utf8.

Lemma app_cons (a : ascii) (s t : string) :
  String a s +:+ t = String a (s +:+ t).
Proof. reflexivity. Qed.

Lemma app_empty_l (s : string) : "" +:+ s = s.
Proof. reflexivity. Qed.

Lemma app_empty_r (s : string) : s +:+ "" = s.
Proof.
  induction s as [|a s IH]; [done|]. by rewrite app_cons, IH.
Qed.

Lemma app_assoc_str (s1 s2 s3 : string) :
  (s1 +:+ s2) +:+ s3 = s1 +:+ (s2 +:+ s3).
Proof.
  induction s1 as [|a s1 IH]; [done|].
  change ((String a s1 +:+ s2) +:+ s3) with (String a ((s1 +:+ s2) +:+ s3)).
  by rewrite IH.
Qed.

Lemma of_code_points_cons (c : string) (l : list string) :
  of_code_points (c :: l) = c +:+ of_code_points l.
Proof.
  unfold of_code_points. destruct l as [|c' l]; cbn [String.concat].
  - by rewrite app_empty_r.
  - done.
Qed.

Lemma of_code_points_app (l1 l2 : list string) :
  of_code_points (l1 ++ l2) = of_code_points l1 +:+ of_code_points l2.
Proof.
  induction l1 as [|c l1 IH]; [done|].
  by rewrite <- app_comm_cons, !of_code_points_cons, IH, app_assoc_str.
Qed.

(** What the scan of a text returns: the continuation bytes it starts with,
    and the code points after them. *)
Lemma code_points_go_spec (s : string) :
  all_cont (code_points_go s).1 = true
  /\ Forall (fun c => lead_chunk c = true) (code_points_go s).2
  /\ s = (code_points_go s).1 +:+ of_code_points (code_points_go s).2.
Proof.
  induction s as [|a r (Hp & Hacc & Hs)]; [by repeat split|].
  cbn [code_points_go]. destruct (code_points_go r) as [p acc].
  cbn [fst snd] in *. destruct (byte_in 128 191 a) eqn:Ha; cbn [fst snd].
  - split; [simpl; unfold cont; by rewrite Ha|]. split; [done|].
    by rewrite app_cons, <- Hs.
  - split; [done|]. split.
    + constructor; [|done]. simpl. unfold cont. by rewrite Ha.
    + by rewrite of_code_points_cons, app_cons, <- Hs.
Qed.

(** The code points of a text, put together again, are the text. *)
Lemma code_points_concat (s : string) : of_code_points (code_points s) = s.
Proof.
  destruct (code_points_go_spec s) as (_ & _ & Hs). unfold code_points.
  destruct (code_points_go s) as [p acc]. cbn [fst snd] in Hs.
  destruct (decide (p = "")) as [->|Hp]; [done|].
  by rewrite of_code_points_cons.
Qed.

Lemma code_points_chunks (s : string) : chunks (code_points s).
Proof.
  destruct (code_points_go_spec s) as (Hp & Hacc & _). unfold code_points.
  destruct (code_points_go s) as [p acc]. cbn [fst snd] in *.
  destruct (decide (p = "")) as [->|Hne].
  - destruct acc as [|c acc]; [done|]. inversion Hacc; subst. split; auto.
  - split; auto.
Qed.

Lemma code_points_go_cont (cs rest : string) :
  all_cont cs = true ->
  code_points_go (cs +:+ rest)
  = (cs +:+ (code_points_go rest).1, (code_points_go rest).2).
Proof.
  induction cs as [|a cs IH]; intros Hcs.
  - rewrite !app_empty_l. by destruct (code_points_go rest).
  - simpl in Hcs. apply andb_prop in Hcs as [Ha Hcs].
    rewrite app_cons. cbn [code_points_go]. rewrite (IH Hcs).
    unfold cont in Ha. by rewrite Ha.
Qed.

Lemma code_points_go_leads (l : list string) :
  Forall (fun c => lead_chunk c = true) l ->
  code_points_go (of_code_points l) = ("", l).
Proof.
  induction 1 as [|c l Hc _ IH]; [done|].
  rewrite of_code_points_cons. destruct c as [|a cs]; [done|].
  simpl in Hc. apply andb_prop in Hc as [Ha Hcs].
  rewrite app_cons. cbn [code_points_go]. rewrite (code_points_go_cont _ _ Hcs), IH.
  cbn [fst snd]. apply negb_true_iff in Ha. unfold cont in Ha.
  by rewrite Ha, app_empty_r.
Qed.

(** Cutting a text into code points undoes putting chunks together. *)
Lemma code_points_of_chunks (l : list string) :
  chunks l -> code_points (of_code_points l) = l.
Proof.
  destruct l as [|c l]; [done|]. intros [[Hc|[Hne Hc]] Hl].
  - unfold code_points. rewrite code_points_go_leads by (by constructor).
    by rewrite decide_True.
  - unfold code_points. rewrite of_code_points_cons.
    rewrite (code_points_go_cont _ _ Hc), (code_points_go_leads _ Hl).
    cbn [fst snd]. rewrite app_empty_r. by rewrite decide_False.
Qed.

Lemma chunks_take (n : nat) (l : list string) : chunks l -> chunks (take n l).
Proof.
  destruct l as [|c l], n as [|n]; try done. intros [Hc Hl].
  split; [done|]. by apply Forall_take.
Qed.

(** [len(s[:n])] is [min(n, len(s))]. *)
Lemma str_len_take (n : Z) (s : string) :
  0 <= n -> str_len (str_take n s) = Z.min n (str_len s).
Proof.
  intros Hn. unfold str_len, str_take, py_take.
  rewrite (proj2 (Z.leb_le 0 n)) by done.
  rewrite code_points_of_chunks by apply chunks_take, code_points_chunks.
  rewrite length_take. lia.
Qed.

(** The code points of two texts put together, when the second does not
    start inside a code point. *)
Lemma code_points_app (x y : string) :
  (code_points_go y).1 = "" ->
  code_points (x +:+ y) = code_points x ++ code_points y.
Proof.
  intros Hy.
  assert (code_points_go (x +:+ y)
          = ((code_points_go x).1, (code_points_go x).2 ++ (code_points_go y).2))
    as Hgo.
  { induction x as [|a r IH].
    - rewrite app_empty_l. destruct (code_points_go y) as [p acc].
      simpl in *. by subst.
    - rewrite app_cons. cbn [code_points_go]. rewrite IH.
      destruct (code_points_go r) as [p acc]. cbn [fst snd].
      by destruct (byte_in 128 191 a). }
  unfold code_points. rewrite Hgo.
  destruct (code_points_go x) as [px accx], (code_points_go y) as [py accy].
  cbn [fst snd] in *. subst py. rewrite (decide_True (P := "" = "")) by done.
  by destruct (decide (px = "")).
Qed.

Lemma str_len_app (x y : string) :
  (code_points_go y).1 = "" -> str_len (x +:+ y) = str_len x + str_len y.
Proof.
  intros Hy. unfold str_len. rewrite (code_points_app _ _ Hy), length_app. lia.
Qed.

End StringFacts.

(** * Further properties of the digest *)

Module DigestMore.
Import Py PyFacts Utf8 StringFacts RssOpenaiDigest DigestParts DigestExamples.

(** X5.  [compact_text] returns at most [limit] characters when [limit] is 3
    or more.  A smaller limit is not honoured: a text longer than it comes
    back as the three dots alone. *)
Theorem compact_text_bounded (value : string) (limit : Z) :
  str_len (compact_text value limit) <= Z.max limit 3
  /\ (limit <= 3 ->
      limit < str_len (String.concat " " (py_split value)) ->
      value <> "" -> compact_text value limit = "...").
Proof.
  unfold compact_text. split.
  - destruct (decide (value = "")) as [Hv|Hv].
    + change (str_len "") with 0. lia.
    + destruct (str_len (String.concat " " (py_split value)) <=? limit) eqn:Hle.
      * apply Z.leb_le in Hle. lia.
      * rewrite str_len_app by reflexivity. rewrite str_len_take by lia.
        change (str_len "...") with 3. lia.
  - intros Hlim Hlong Hne. rewrite decide_False by done.
    rewrite (proj2 (Z.leb_gt _ _)) by done.
    by replace (Z.max (limit - 3) 0) with 0 by lia.
Qed.

Lemma py_take_length {A : Type} (n : Z) (l : list A) :
  Z.of_nat (length (py_take n l))
  = if 0 <=? n then Z.min n (Z.of_nat (length l))
    else Z.max 0 (Z.of_nat (length l) + n).
Proof.
  unfold py_take. destruct (0 <=? n) eqn:Hn; rewrite length_take.
  - apply Z.leb_le in Hn. lia.
  - apply Z.leb_gt in Hn. lia.
Qed.

Lemma dedupe_key_set_fetched_at (it : item) (t : string) :
  dedupe_key (set_fetched_at it t) = dedupe_key it.
Proof. reflexivity. Qed.

(** *** The first item of each key *)

Lemma first_of_key_sublist (keys : gset string) (its : list item) :
  sublist (first_of_key keys its) its.
Proof.
  revert keys. induction its as [|it its IH]; intros keys; simpl; [constructor|].
  destruct (decide (dedupe_key it ∈ keys)).
  - by apply sublist_cons.
  - by apply sublist_skip.
Qed.

Lemma first_of_key_fresh (keys : gset string) (its : list item) (x : item) :
  x ∈ first_of_key keys its -> dedupe_key x ∉ keys.
Proof.
  revert keys. induction its as [|it its IH]; intros keys; simpl.
  - by intros ?%elem_of_nil.
  - destruct (decide (dedupe_key it ∈ keys)) as [|Hnew]; [by apply IH|].
    intros [->|Hx]%elem_of_cons; [done|].
    apply IH in Hx. set_solver.
Qed.

Lemma first_of_key_NoDup (keys : gset string) (its : list item) :
  NoDup (map dedupe_key (first_of_key keys its)).
Proof.
  revert keys. induction its as [|it its IH]; intros keys; simpl; [constructor|].
  destruct (decide (dedupe_key it ∈ keys)) as [|Hnew]; [by apply IH|].
  simpl. constructor; [|by apply IH].
  intros (x & Hk & Hx)%list_elem_of_fmap.
  apply first_of_key_fresh in Hx. set_solver.
Qed.

Lemma first_of_key_app (keys : gset string) (l1 l2 : list item) :
  first_of_key keys (l1 ++ l2)
  = first_of_key keys l1
    ++ first_of_key (list_to_set (map dedupe_key l1) ∪ keys) l2.
Proof.
  revert keys. induction l1 as [|it l1 IH]; intros keys.
  - cbn [app first_of_key map]. by rewrite list_to_set_nil, (left_id_L ∅ (∪)).
  - cbn [app first_of_key map]. rewrite list_to_set_cons.
    destruct (decide (dedupe_key it ∈ keys)) as [Hin|Hnew].
    + rewrite IH. do 2 f_equal. apply set_eq. intros k.
      rewrite !elem_of_union, elem_of_singleton. naive_solver.
    + rewrite IH. cbn [app]. do 3 f_equal. apply set_eq. intros k.
      rewrite !elem_of_union, elem_of_singleton. tauto.
Qed.

(** An item is kept exactly when it is the first of the list with its key
    and its key was not seen before the list. *)
Lemma first_of_key_lookup (keys : gset string) (its : list item) (x : item) :
  x ∈ first_of_key keys its
  <-> exists i,
        its !! i = Some x /\ dedupe_key x ∉ keys
        /\ forall j y, (j < i)%nat -> its !! j = Some y ->
              dedupe_key y <> dedupe_key x.
Proof.
  revert keys. induction its as [|it its IH]; intros keys.
  - split; [by intros ?%elem_of_nil|]. by intros (i & Hi & _).
  - cbn [first_of_key]. destruct (decide (dedupe_key it ∈ keys)) as [Hin|Hnew].
    + rewrite IH. split.
      * intros (i & Hi & Hk & Hfirst). exists (S i). split; [done|].
        split; [done|]. intros [|j] y Hj Hy.
        -- injection Hy as <-. congruence.
        -- apply (Hfirst j); [lia|done].
      * intros ([|i] & Hi & Hk & Hfirst).
        -- injection Hi as <-. done.
        -- exists i. split; [done|]. split; [done|].
           intros j y Hj Hy. apply (Hfirst (S j)); [lia|done].
    + rewrite elem_of_cons, IH. split.
      * intros [->|(i & Hi & Hk & Hfirst)].
        -- exists 0%nat. split; [done|]. split; [done|]. intros j y Hj. lia.
        -- exists (S i). split; [done|]. split; [set_solver|].
           intros [|j] y Hj Hy.
           ++ injection Hy as <-. set_solver.
           ++ apply (Hfirst j); [lia|done].
      * intros ([|i] & Hi & Hk & Hfirst).
        -- left. by injection Hi as <-.
        -- right. exists i. split; [done|]. split.
           ++ intros [Hit%elem_of_singleton|?]%elem_of_union; [|done].
              apply (Hfirst 0%nat it); [lia|done|done].
           ++ intros j y Hj Hy. apply (Hfirst (S j)); [lia|done].
Qed.

Section Digest.
Variable repr_str : string -> string.
Variable sha1_hexdigest : string -> string.
Variable html_text : string -> string.
Variable html_unescape : string -> string.

Local Abbreviation main := (main repr_str sha1_hexdigest html_text html_unescape).
Local Abbreviation collect :=
  (collect repr_str sha1_hexdigest html_text html_unescape).
Local Abbreviation collect_feed :=
  (collect_feed repr_str sha1_hexdigest html_text html_unescape).
Local Abbreviation feed_items :=
  (feed_items repr_str sha1_hexdigest html_text html_unescape).
Local Abbreviation entry_item :=
  (entry_item repr_str sha1_hexdigest html_text html_unescape).
Local Abbreviation fetched :=
  (fetched repr_str sha1_hexdigest html_text html_unescape).

(** X6.  A feed delivers at most [max_items] items when [max_items] is not
    negative, and all but the last [-max_items] entries when it is; every
    item has a title of at most 200 and a summary of at most 500
    characters, carries the source and feed fields of its feed, and has no
    fetch time and no AI field yet. *)
Theorem feed_items_bounds (f : feed) (max_items : Z) (entries : list entry) :
  Z.of_nat (length (feed_items f max_items entries))
  = (if 0 <=? max_items then Z.min max_items (Z.of_nat (length entries))
     else Z.max 0 (Z.of_nat (length entries) + max_items))
  /\ Forall (fun it =>
               str_len (title it) <= 200 /\ str_len (summary it) <= 500
               /\ source_id it = feed_source_id f
               /\ source_name it = feed_source_name f
               /\ item_feed_url it = feed_url f
               /\ fetched_at it = None
               /\ ai_summary it = None /\ ai_tags it = None)
            (feed_items f max_items entries).
Proof.
  unfold RssOpenaiDigest.feed_items. split.
  - rewrite length_map. apply py_take_length.
  - apply Forall_forall. intros it (e & -> & _)%list_elem_of_fmap.
    cbn [title summary source_id source_name item_feed_url fetched_at
         ai_summary ai_tags RssOpenaiDigest.entry_item].
    split; [apply (proj1 (compact_text_bounded _ 200))|].
    split; [apply (proj1 (compact_text_bounded _ 500))|]. by repeat split.
Qed.

(** *** The loop over the feeds, in closed form *)

Lemma collect_items_loop (now : string) (its : list item) :
  forall st,
    items (foldl (collect_item now) st its)
    = items st ++ map (fun it => set_fetched_at it now)
                      (first_of_key (seen st) its)
    /\ errors (foldl (collect_item now) st its) = errors st
    /\ seen (foldl (collect_item now) st its)
       = list_to_set (map dedupe_key its) ∪ seen st.
Proof.
  induction its as [|it its IH]; intros st.
  - cbn [foldl first_of_key map]. rewrite app_nil_r, list_to_set_nil.
    by rewrite (left_id_L ∅ (∪)).
  - cbn [foldl first_of_key map]. rewrite list_to_set_cons.
    unfold collect_item at 2 4 6.
    destruct (decide (dedupe_key it ∈ seen st)) as [Hin|Hnew].
    + destruct (IH st) as (-> & -> & ->). split; [done|]. split; [done|].
      apply set_eq. intros k. rewrite !elem_of_union, elem_of_singleton.
      naive_solver.
    + destruct (IH {| items := items st ++ [set_fetched_at it now];
                      errors := errors st;
                      seen := {[dedupe_key it]} ∪ seen st |}) as (-> & -> & ->).
      cbn [items errors seen]. split; [by rewrite <- app_assoc|].
      split; [done|]. apply set_eq. intros k.
      rewrite !elem_of_union, elem_of_singleton. tauto.
Qed.

Lemma fetched_cons (a : args) (w : environment) (f : feed) (feeds : list feed) :
  fetched a w (f :: feeds)
  = match env_fetch w f with
    | inl _ => []
    | inr entries => feed_items f (max_items_per_feed a) entries
    end ++ fetched a w feeds.
Proof. reflexivity. Qed.

Lemma failures_cons (w : environment) (f : feed) (feeds : list feed) :
  failures w (f :: feeds)
  = match env_fetch w f with
    | inl err => [{| error_feed_url := feed_url f;
                     error_source_id := feed_source_id f; error := err |}]
    | inr _ => []
    end ++ failures w feeds.
Proof. unfold failures. cbn [omap list_omap]. by destruct (env_fetch w f). Qed.

Lemma collect_feeds_loop (a : args) (w : environment) (feeds : list feed) :
  forall st,
    items (foldl (collect_feed a w) st feeds)
    = items st ++ map (fun it => set_fetched_at it (env_now w))
                      (first_of_key (seen st) (fetched a w feeds))
    /\ errors (foldl (collect_feed a w) st feeds)
       = errors st ++ failures w feeds.
Proof.
  induction feeds as [|f feeds IH]; intros st.
  - cbn. by rewrite !app_nil_r.
  - cbn [foldl]. destruct (IH (collect_feed a w st f)) as (-> & ->).
    rewrite fetched_cons, failures_cons.
    unfold RssOpenaiDigest.collect_feed.
    destruct (env_fetch w f) as [err|entries].
    + cbn [items errors seen app]. by rewrite <- app_assoc.
    + destruct (collect_items_loop (env_now w)
                  (feed_items f (max_items_per_feed a) entries) st)
        as (-> & -> & ->).
      rewrite first_of_key_app, map_app, <- app_assoc. by split.
Qed.

Lemma collect_closed (a : args) (w : environment) (feeds : list feed) :
  items (collect a w feeds)
  = map (fun it => set_fetched_at it (env_now w))
        (first_of_key ∅ (fetched a w feeds))
  /\ errors (collect a w feeds) = failures w feeds.
Proof.
  unfold RssOpenaiDigest.collect.
  by destruct (collect_feeds_loop a w feeds
                 {| items := []; errors := []; seen := ∅ |}) as (-> & ->).
Qed.

(** X7.  No two items of a run have the same dedupe key, whatever the feeds
    deliver. *)
Theorem collect_keys_unique (a : args) (w : environment) (feeds : list feed) :
  NoDup (map dedupe_key (items (collect a w feeds))).
Proof.
  destruct (collect_closed a w feeds) as [-> _]. rewrite map_map.
  rewrite (map_ext _ dedupe_key) by (intros; apply dedupe_key_set_fetched_at).
  apply first_of_key_NoDup.
Qed.

(** X8.  The items of a run are the fetched items that are the first with
    their dedupe key, in the order the feeds delivered them and stamped with
    the time of the run; every fetched item has its key among them. *)
Theorem collect_keeps_first (a : args) (w : environment) (feeds : list feed) :
  (forall x,
     x ∈ items (collect a w feeds)
     <-> exists it i,
           x = set_fetched_at it (env_now w)
           /\ fetched a w feeds !! i = Some it
           /\ forall j y, (j < i)%nat -> fetched a w feeds !! j = Some y ->
                 dedupe_key y <> dedupe_key it)
  /\ sublist (items (collect a w feeds))
             (map (fun it => set_fetched_at it (env_now w)) (fetched a w feeds))
  /\ (forall it, it ∈ fetched a w feeds ->
        exists x, x ∈ items (collect a w feeds)
                  /\ dedupe_key x = dedupe_key it).
Proof.
  destruct (collect_closed a w feeds) as [-> _]. split; [|split].
  - intros x. rewrite list_elem_of_fmap. split.
    + intros (it & -> & Hit). apply first_of_key_lookup in Hit
        as (i & Hi & _ & Hfirst). by exists it, i.
    + intros (it & i & -> & Hi & Hfirst). exists it. split; [done|].
      apply first_of_key_lookup. exists i. split; [done|]. split; [|done].
      apply not_elem_of_empty.
  - apply (fmap_sublist (fun it => set_fetched_at it (env_now w))).
    apply first_of_key_sublist.
  - intros it Hit.
    assert (forall keys l, it ∈ l -> dedupe_key it ∉ keys ->
              exists x, x ∈ first_of_key keys l
                        /\ dedupe_key x = dedupe_key it) as Hcover.
    { intros keys l. revert keys.
      induction l as [|y l IH]; intros keys Hin Hk; [by apply elem_of_nil in Hin|].
      cbn [first_of_key].
      destruct (decide (dedupe_key y ∈ keys)) as [Hy|Hy].
      - apply elem_of_cons in Hin as [->|Hin]; [done|].
        by apply IH.
      - destruct (decide (dedupe_key y = dedupe_key it)) as [Heq|Hne].
        + exists y. split; [apply list_elem_of_here|done].
        + apply elem_of_cons in Hin as [->|Hin]; [done|].
          destruct (IH ({[dedupe_key y]} ∪ keys) Hin) as (x & Hx & Hkx).
          * rewrite elem_of_union, elem_of_singleton. naive_solver.
          * exists x. split; [by apply list_elem_of_further|done]. }
    destruct (Hcover ∅ (fetched a w feeds) Hit) as (x & Hx & Hkx);
      [apply not_elem_of_empty|].
    exists (set_fetched_at x (env_now w)). split; [|done].
    by apply (list_elem_of_fmap_2 (fun it => set_fetched_at it (env_now w))).
Qed.

Lemma fetched_succeeding (a : args) (w : environment) (feeds : list feed) :
  fetched a w
    (List.filter (fun f => match env_fetch w f with
                           | inr _ => true
                           | inl _ => false
                           end) feeds)
  = fetched a w feeds.
Proof.
  induction feeds as [|f feeds IH]; [done|].
  cbn [List.filter]. rewrite (fetched_cons a w f feeds).
  destruct (env_fetch w f) as [err|entries] eqn:Hf; [done|].
  by rewrite fetched_cons, Hf, IH.
Qed.

(** X9.  A feed that fails costs the run nothing but its own items: the
    error list holds one record for each failing feed, in order, with the
    feed's URL and source and the text of the exception, and the items are
    those of a run over the feeds that succeed. *)
Theorem collect_errors (a : args) (w : environment) (feeds : list feed) :
  errors (collect a w feeds)
  = omap (fun f =>
            match env_fetch w f with
            | inl err => Some {| error_feed_url := feed_url f;
                                 error_source_id := feed_source_id f;
                                 error := err |}
            | inr _ => None
            end) feeds
  /\ items (collect a w feeds)
     = items (collect a w
                (List.filter (fun f => match env_fetch w f with
                                       | inr _ => true
                                       | inl _ => false
                                       end) feeds)).
Proof.
  split; [apply collect_closed|].
  destruct (collect_closed a w feeds) as [-> _].
  destruct (collect_closed a w
              (List.filter (fun f => match env_fetch w f with
                                     | inr _ => true
                                     | inl _ => false
                                     end) feeds)) as [-> _].
  by rewrite fetched_succeeding.
Qed.

(** X10.  With [--skip-openai], or when no item was collected, a run over
    selected feeds returns the collected items as they are, with no
    [openai] block; neither the API key nor the language model is
    consulted. *)
Theorem main_without_summary (a : args) (w : environment) (feeds : list feed) :
  feeds <> [] ->
  skip_openai a = true \/ items (collect a w feeds) = [] ->
  main a w feeds
  = Ok {| schema_version := "1.0"; generated_at := env_now w;
          catalog_path := catalog a;
          request := (max_sources a, feeds_per_source a, max_items_per_feed a,
                      source_ids a);
          openai := None;
          output_items := items (collect a w feeds);
          output_errors := errors (collect a w feeds) |}.
Proof.
  intros Hfeeds Hskip. unfold RssOpenaiDigest.main.
  rewrite bool_decide_eq_false_2 by done. unfold summarize.
  destruct Hskip as [-> | ->].
  - by rewrite orb_true_r.
  - by rewrite bool_decide_eq_true_2.
Qed.

Lemma mapping_step_raises (m : gmap string json) (x : json) (e : exn) :
  mapping_step m x = Raise e -> e = AttributeError \/ e = TypeError.
Proof.
  unfold mapping_step. destruct x as [| | | | | |r]; cbn [py_get mbind result_bind];
    try (intros [= <-]; by left).
  destruct (py_truthy (dict_get "id" JNull r)); [|done].
  destruct (dict_get "id" JNull r); try done; intros [= <-]; by right.
Qed.

Lemma mapping_loop_raises (l : list json) (e : exn) :
  forall m, for_each mapping_step m l = Raise e ->
            e = AttributeError \/ e = TypeError.
Proof.
  induction l as [|x l IH]; intros m; [done|]. cbn [for_each].
  destruct (mapping_step m x) as [m1|e1] eqn:Hx; cbn [mbind result_bind].
  - apply IH.
  - intros [= <-]. by apply mapping_step_raises in Hx.
Qed.

Lemma build_mapping_raises (parsed : json) (e : exn) :
  build_mapping parsed = Raise e -> e = AttributeError \/ e = TypeError.
Proof.
  unfold build_mapping.
  destruct parsed as [| | | | | |d]; cbn [py_get mbind result_bind];
    try (intros [= <-]; by left).
  destruct (py_iter (py_or (dict_get "items" JNull d) (JList []))) as [l|e0]
    eqn:Hiter; cbn [mbind result_bind].
  - apply mapping_loop_raises.
  - intros [= <-]. right.
    destruct (py_or (dict_get "items" JNull d) (JList []));
      cbn [py_iter] in Hiter; congruence.
Qed.

Lemma augment_items_raises (m : gmap string json) (its : list item) (e : exn) :
  augment_items m its = Raise e -> e = AttributeError.
Proof.
  induction its as [|it its IH]; [done|]. cbn [augment_items].
  destruct (augment_item m it) as [it'|e1] eqn:Hit; cbn [mbind result_bind].
  - destruct (augment_items m its); [done|]. cbn [mbind result_bind].
    intros [= <-]. by apply IH.
  - intros [= <-]. unfold augment_item in Hit.
    destruct (m !! id it) as [ai|]; [|done].
    destruct (py_truthy ai); [|done].
    destruct ai; cbn [py_get mbind result_bind] in Hit; congruence.
Qed.

Lemma augment_raises (parsed : json) (its : list item) (e : exn) :
  augment parsed its = Raise e -> e = AttributeError \/ e = TypeError.
Proof.
  unfold augment.
  destruct (build_mapping parsed) as [m|e1] eqn:Hm; cbn [mbind result_bind].
  - intros ->%augment_items_raises. by left.
  - intros [= <-]. by apply build_mapping_raises in Hm.
Qed.

(** X11.  The part of a run that reads the reply of the language model
    fails in two ways only: with [AttributeError] or with [TypeError]; and
    it fails only on a reply that is not an object whose [items] is absent,
    falsy or a list of objects with an [id] that can be a dictionary key. *)
Theorem augment_failures (parsed : json) (its : list item) (e : exn) :
  augment parsed its = Raise e ->
  (e = AttributeError \/ e = TypeError)
  /\ ~ exists entries, readable_reply parsed entries.
Proof.
  intros Hrun. split; [by eapply augment_raises|].
  intros [r Hr]%(RssProps.augment_ok_iff parsed its). congruence.
Qed.

End Digest.

(** ** [extract_json] *)

Lemma rfind_char_None (c : ascii) (s : string) :
  rfind_char c s = None <-> find_char c s = None.
Proof.
  induction s as [|a s IH]; [done|]. cbn [rfind_char find_char].
  destruct (decide (a = c)) as [->|Hne].
  - split; [|done]. by destruct (rfind_char c s).
  - destruct (rfind_char c s), (find_char c s); simpl; try done.
    + by specialize (proj2 IH eq_refl).
    + by specialize (proj1 IH eq_refl).
Qed.

Lemma rfind_char_split (c : ascii) (s : string) (j : nat) :
  rfind_char c s = Some j ->
  exists pre suf,
    s = pre +:+ String c suf /\ String.length pre = j /\ find_char c suf = None.
Proof.
  revert j. induction s as [|a s IH]; intros j; [done|]. cbn [rfind_char].
  destruct (rfind_char c s) as [i|] eqn:Hr.
  - intros [= <-]. destruct (IH i eq_refl) as (pre & suf & -> & <- & Hsuf).
    by exists (String a pre), suf.
  - destruct (decide (a = c)) as [->|]; [|done]. intros [= <-].
    exists "", s. split; [done|]. split; [done|]. by apply rfind_char_None.
Qed.

Lemma substring_prefix (pre : string) (c : ascii) (post : string) :
  substring 0 (String.length pre + 1) (pre +:+ String c post)
  = pre +:+ String c "".
Proof.
  induction pre as [|a pre IH]; [by destruct post|].
  rewrite !app_cons. cbn [String.length Nat.add substring]. by rewrite IH.
Qed.

(** The text between the first [o] and the last [c], when the first comes
    before the last. *)
Lemma between_split (o c : ascii) (s : string) :
  forall i j,
    find_char o s = Some i -> rfind_char c s = Some j -> (i < j)%nat ->
    exists pre mid post,
      s = pre +:+ String o (mid +:+ String c post)
      /\ find_char o pre = None /\ find_char c post = None
      /\ substring i (j + 1 - i) s = String o (mid +:+ String c "").
Proof.
  induction s as [|a s IH]; intros i j Hi Hj Hlt; [done|].
  cbn [find_char rfind_char] in Hi, Hj.
  destruct (rfind_char c s) as [j'|] eqn:Hr; cycle 1.
  { destruct (decide (a = c)); [|done]. injection Hj as <-. lia. }
  injection Hj as <-.
  destruct (decide (a = o)) as [->|Hne].
  - injection Hi as <-.
    destruct (rfind_char_split c s j' Hr) as (mid & post & -> & <- & Hpost).
    exists "", mid, post. split; [done|]. split; [done|]. split; [done|].
    replace (S (String.length mid) + 1 - 0)%nat
      with (S (String.length mid + 1)) by lia.
    cbn [substring]. by rewrite substring_prefix.
  - destruct (find_char o s) as [i'|] eqn:Hf; [|done]. injection Hi as <-.
    destruct (IH i' j' eq_refl eq_refl) as (pre & mid & post & -> & Hpre & Hpost & Hsub);
      [lia|].
    exists (String a pre), mid, post. split; [done|]. split.
    + cbn [find_char]. by rewrite decide_False, Hpre.
    + split; [done|].
      replace (S j' + 1 - S i')%nat with (j' + 1 - i')%nat by lia.
      cbn [substring]. exact Hsub.
Qed.

Lemma last_char_split (s : string) (c : ascii) :
  last_char s = Some c -> exists pre, s = pre +:+ String c "".
Proof.
  induction s as [|a s IH]; [done|]. cbn [last_char].
  destruct s as [|b s]; [intros [= ->]; by exists ""|].
  intros [pre ->]%IH. by exists (String a pre).
Qed.

Lemma last_char_app (pre : string) (c : ascii) :
  last_char (pre +:+ String c "") = Some c.
Proof.
  induction pre as [|a pre IH]; [done|]. rewrite app_cons. cbn [last_char].
  destruct (pre +:+ String c "") eqn:E; [destruct pre; discriminate E|].
  exact IH.
Qed.

Lemma is_space_open (p : string) : is_space (String "{" p) = false.
Proof. by destruct p as [|b [|b' [|b'' p]]]. Qed.

(** A text in braces has no white space to strip. *)
Lemma py_strip_braced (mid : string) :
  py_strip (String "{" (mid +:+ String "}" "")) = String "{" (mid +:+ String "}" "").
Proof.
  unfold py_strip.
  change (String "{" (mid +:+ String "}" ""))
    with (String "{" mid +:+ String "}" "") at 1.
  rewrite code_points_app by reflexivity.
  assert (exists p acc, code_points (String "{" mid) = String "{" p :: acc)
    as (p & acc & Hcps).
  { unfold code_points. cbn [code_points_go].
    destruct (code_points_go mid) as [p acc].
    change (byte_in 128 191 "{") with false. cbn iota.
    rewrite decide_True by done. by eexists _, _. }
  rewrite Hcps. change (code_points (String "}" "")) with [String "}" ""].
  cbn [app drop_while]. rewrite is_space_open.
  change (String "{" p :: acc ++ [String "}" ""])
    with ((String "{" p :: acc) ++ [String "}" ""]).
  rewrite rev_app_distr.
  change (rev [String "}" ""] ++ rev (String "{" p :: acc))
    with (String "}" "" :: rev (String "{" p :: acc)).
  cbn [drop_while]. change (is_space (String "}" "")) with false. cbn iota.
  change (String "}" "" :: rev (String "{" p :: acc))
    with ([String "}" ""] ++ rev (String "{" p :: acc)).
  rewrite rev_app_distr, rev_involutive.
  change (rev [String "}" ""]) with [String "}" ""].
  rewrite <- Hcps.
  change [String "}" ""] with (code_points (String "}" "")).
  rewrite <- (code_points_app (String "{" mid) (String "}" "")) by reflexivity.
  apply code_points_concat.
Qed.

(** What [extract_json] returns, when it returns a text. *)
Lemma extract_json_cases (text : string) :
  extract_json text = ""
  \/ exists pre mid post,
       py_strip text = pre +:+ extract_json text +:+ post
       /\ extract_json text = String "{" (mid +:+ String "}" "")
       /\ find_char "{" pre = None /\ find_char "}" post = None.
Proof.
  unfold extract_json. set (t := py_strip text).
  destruct (bool_decide (first_char t = Some "{"%char)
            && bool_decide (last_char t = Some "}"%char)) eqn:Hb.
  - apply andb_prop in Hb as [Hf%bool_decide_eq_true Hl%bool_decide_eq_true].
    right. destruct t as [|a r]; [done|]. injection Hf as ->.
    cbn [last_char] in Hl. destruct r as [|b r]; [done|].
    apply last_char_split in Hl as [mid Hmid]. rewrite Hmid.
    exists "", mid, "". by rewrite app_empty_l, app_empty_r.
  - destruct (find_char "{" t) as [i|] eqn:Hi; [|by left].
    destruct (rfind_char "}" t) as [j|] eqn:Hj; [|by left].
    destruct (i <? j)%nat eqn:Hlt; [|by left]. apply Nat.ltb_lt in Hlt.
    destruct (between_split _ _ t i j Hi Hj Hlt)
      as (pre & mid & post & Ht & Hpre & Hpost & Hsub).
    right. exists pre, mid, post. rewrite Hsub. split; [|done].
    by rewrite Ht, !app_cons, app_assoc_str.
Qed.

(** X12.  [extract_json] returns either no text or the part of the stripped
    reply from its first opening brace to its last closing brace: a text
    that starts with [{] and ends with [}], with no [{] before it and no
    [}] after it in the reply. *)
Theorem extract_json_outermost (text : string) :
  extract_json text = ""
  \/ exists pre post,
       py_strip text = pre +:+ extract_json text +:+ post
       /\ first_char (extract_json text) = Some "{"%char
       /\ last_char (extract_json text) = Some "}"%char
       /\ find_char "{" pre = None /\ find_char "}" post = None.
Proof.
  destruct (extract_json_cases text) as [?|(pre & mid & post & Ht & Hr & Hpre & Hpost)];
    [by left|].
  right. exists pre, post. split; [done|]. rewrite Hr. split; [done|].
  split; [|done].
  change (String "{" (mid +:+ String "}" ""))
    with (String "{" mid +:+ String "}" "").
  apply last_char_app.
Qed.

Lemma find_char_app (c : ascii) (pre suf : string) :
  exists i, find_char c (pre +:+ String c suf) = Some i
            /\ (i <= String.length pre)%nat.
Proof.
  induction pre as [|a pre (i & Hi & Hle)].
  - exists 0%nat. rewrite app_empty_l. cbn [find_char].
    by rewrite decide_True.
  - rewrite app_cons. cbn [find_char String.length].
    destruct (decide (a = c)); [exists 0%nat; split; [done|lia]|].
    exists (S i). rewrite Hi. split; [done|lia].
Qed.

Lemma rfind_char_app (c : ascii) (pre suf : string) :
  exists j, rfind_char c (pre +:+ String c suf) = Some j
            /\ (String.length pre <= j)%nat.
Proof.
  induction pre as [|a pre (j & Hj & Hle)].
  - rewrite app_empty_l. cbn [rfind_char].
    destruct (rfind_char c suf) as [j|]; [exists (S j); split; [done|simpl; lia]|].
    exists 0%nat. by rewrite decide_True.
  - rewrite app_cons. cbn [rfind_char String.length]. rewrite Hj.
    exists (S j). split; [done|lia].
Qed.

(** X13.  [extract_json] returns no text exactly when the stripped reply has
    no [{] with a [}] somewhere after it; the reply is then refused with
    "OpenAI returned empty content." before any decoding. *)
Theorem extract_json_empty (text : string) :
  (extract_json text = ""
   <-> ~ exists pre mid post,
           py_strip text = pre +:+ String "{" (mid +:+ String "}" post))
  /\ (extract_json text = "" ->
      forall json_decode,
        parse_content json_decode text
        = Raise (RuntimeError "OpenAI returned empty content.")).
Proof.
  split.
  - split.
    + intros Hempty (pre & mid & post & Ht).
      unfold extract_json in Hempty. rewrite Ht in Hempty.
      destruct (bool_decide _ && bool_decide _) eqn:Hb.
      { apply andb_prop in Hb as [Hf%bool_decide_eq_true _].
        rewrite Hempty in Hf. done. }
      destruct (find_char_app "{" pre (mid +:+ String "}" post)) as (i & Hi & Hle).
      rewrite Hi in Hempty.
      assert (pre +:+ String "{" (mid +:+ String "}" post)
              = (pre +:+ String "{" mid) +:+ String "}" post) as Hre.
      { by rewrite app_assoc_str, app_cons. }
      destruct (rfind_char_app "}" (pre +:+ String "{" mid) post) as (j & Hj & Hge).
      rewrite <- Hre in Hj. rewrite Hj in Hempty.
      assert (String.length (pre +:+ String "{" mid)
              = S (String.length pre + String.length mid)) as Hlen.
      { clear. induction pre as [|a pre IH]; [done|].
        rewrite app_cons. cbn [String.length Nat.add]. by rewrite IH. }
      rewrite (proj2 (Nat.ltb_lt i j)) in Hempty by lia.
      destruct (between_split _ _ _ i j Hi Hj) as (? & ? & ? & _ & _ & _ & Hsub);
        [lia|].
      by rewrite Hsub in Hempty.
    + intros Hno.
      destruct (extract_json_cases text)
        as [?|(pre & mid & post & Ht & Hr & _)]; [done|].
      destruct Hno. exists pre, mid, post. rewrite Ht, Hr.
      by rewrite !app_cons, app_assoc_str.
  - intros Hempty json_decode. unfold parse_content.
    by rewrite decide_True.
Qed.

(** X14.  [extract_json] is idempotent: what it returns is returned
    unchanged when given to it again. *)
Theorem extract_json_idempotent (text : string) :
  extract_json (extract_json text) = extract_json text.
Proof.
  destruct (extract_json_cases text) as [->|(_ & mid & _ & _ & -> & _)];
    [done|].
  unfold extract_json at 1. rewrite py_strip_braced.
  cbn [first_char]. rewrite bool_decide_eq_true_2 by done.
  assert (last_char (String "{" (mid +:+ String "}" "")) = Some "}"%char) as Hl
    by apply (last_char_app (String "{" mid)).
  by rewrite Hl, bool_decide_eq_true_2.
Qed.

(** ** [select_feeds] *)

Local Ltac step := cbn [mbind result_bind].
Local Tactic Notation "step_in" hyp(H) := cbn [mbind result_bind] in H.

Lemma slice_iter_length (v part : json) (n : Z) (fs : list json) :
  0 <= n -> py_slice_to v n = Ok part -> py_iter part = Ok fs ->
  Z.of_nat (length fs) <= n.
Proof.
  intros Hn. destruct v; try done; intros [= <-]; cbn [py_iter]; intros [= <-].
  - rewrite length_map. pose proof (str_len_take n s Hn) as Hlen.
    unfold str_len in Hlen. lia.
  - rewrite py_take_length. rewrite (proj2 (Z.leb_le 0 n)) by done. lia.
Qed.

Lemma selected_feeds_ok (source : json) (fs : list json) :
  forall new,
    selected_feeds source fs = Ok new ->
    length new = length fs
    /\ Forall (fun f => py_get source "id" = Ok (feed_source_id f)) new.
Proof.
  induction fs as [|f fs IH]; intros new; cbn [selected_feeds].
  - intros [= <-]. by split.
  - destruct (selected_feed source f) as [x|] eqn:Hx; [|done]. step.
    destruct (selected_feeds source fs) as [xs|] eqn:Hxs; [|done]. step.
    intros [= <-]. destruct (IH xs eq_refl) as [Hlen Hall].
    split; [by cbn [length]; rewrite Hlen|]. constructor; [|done].
    unfold selected_feed in Hx.
    destruct (py_get source "id") as [sid|]; [|done]. step_in Hx.
    destruct (py_get source "name"); [|done]. step_in Hx.
    destruct (py_get f "name"); [|done]. step_in Hx.
    destruct (py_get f "url"); [|done]. step_in Hx.
    destruct (py_get f "topic_tags"); [|done]. step_in Hx.
    by injection Hx as <-.
Qed.

Lemma select_loop_bound (max_sources feeds_per_source : Z)
    (source_ids : list string) (sources : list json) :
  0 <= feeds_per_source ->
  forall selected feeds out,
    select_loop max_sources feeds_per_source source_ids sources selected feeds
    = Ok out ->
    Z.of_nat (length out)
    <= Z.of_nat (length feeds)
       + Z.max 0 (max_sources - selected) * feeds_per_source.
Proof.
  intros Hfps. induction sources as [|source sources IH];
    intros selected feeds out; cbn [select_loop].
  - intros [= <-]. nia.
  - destruct (filtered_out source_ids source) as [[|]|]; [| |done]; step.
    { apply IH. }
    destruct (max_sources <=? selected) eqn:Hmax.
    { intros [= <-]. nia. }
    apply Z.leb_gt in Hmax.
    destruct (py_get source "feeds") as [feed_list|]; [|done]. step.
    destruct (py_slice_to _ _) as [part|] eqn:Hpart; [|done]. step.
    destruct (py_iter part) as [fs|] eqn:Hfs; [|done]. step.
    destruct (selected_feeds source fs) as [new|] eqn:Hnew; [|done]. step.
    intros Hout%IH. rewrite length_app in Hout.
    apply selected_feeds_ok in Hnew as [Hlen _].
    pose proof (slice_iter_length _ _ _ _ Hfps Hpart Hfs). nia.
Qed.

(** X15.  [select_feeds] returns at most [max_sources] times
    [feeds_per_source] feeds, when [feeds_per_source] is not negative; none
    when [max_sources] is zero or less. *)
Theorem select_feeds_bounds (catalog : json) (max_sources feeds_per_source : Z)
    (source_ids : list string) (feeds : list feed) :
  0 <= feeds_per_source ->
  select_feeds catalog max_sources feeds_per_source source_ids = Ok feeds ->
  Z.of_nat (length feeds) <= Z.max 0 max_sources * feeds_per_source
  /\ (max_sources <= 0 -> feeds = []).
Proof.
  intros Hfps. unfold select_feeds.
  destruct (py_get catalog "sources") as [v|]; [|done]. step.
  destruct (py_iter _) as [sources|]; [|done]. step.
  intros Hout%select_loop_bound; [|done].
  rewrite Z.sub_0_r in Hout. cbn [length] in Hout. split; [lia|].
  intros Hmax. destruct feeds; [done|]. cbn [length] in Hout. nia.
Qed.

Lemma filtered_out_listed (source_ids : list string) (source : json) :
  source_ids <> [] ->
  filtered_out source_ids source = Ok false ->
  exists sid i,
    py_get source "id" = Ok sid /\ sid = JStr i /\ i ∈ source_ids.
Proof.
  intros Hids.
  assert (filtered_out source_ids source
          = (sid ← py_get source "id";
             Ok (negb (existsb (py_eq_str sid) source_ids)))) as ->
    by (by destruct source_ids).
  destruct (py_get source "id") as [sid|]; [|done]. step.
  intros [= Hex%negb_false_iff]. apply existsb_exists in Hex as (i & Hin & Heq).
  exists sid, i. split; [done|]. destruct sid; try done.
  apply bool_decide_eq_true in Heq as ->. split; [done|].
  by apply list_elem_of_In.
Qed.

Lemma select_loop_listed (max_sources feeds_per_source : Z)
    (source_ids : list string) (sources : list json) :
  source_ids <> [] ->
  forall selected feeds out,
    Forall (fun f => exists i, feed_source_id f = JStr i /\ i ∈ source_ids) feeds ->
    select_loop max_sources feeds_per_source source_ids sources selected feeds
    = Ok out ->
    Forall (fun f => exists i, feed_source_id f = JStr i /\ i ∈ source_ids) out.
Proof.
  intros Hids. induction sources as [|source sources IH];
    intros selected feeds out Hfeeds; cbn [select_loop].
  - by intros [= <-].
  - destruct (filtered_out source_ids source) as [[|]|] eqn:Hskip; [| |done];
      step.
    { by apply IH. }
    destruct (max_sources <=? selected); [by intros [= <-]|].
    destruct (py_get source "feeds") as [feed_list|]; [|done]. step.
    destruct (py_slice_to _ _) as [part|]; [|done]. step.
    destruct (py_iter part) as [fs|]; [|done]. step.
    destruct (selected_feeds source fs) as [new|] eqn:Hnew; [|done]. step.
    apply IH. apply Forall_app. split; [done|].
    apply selected_feeds_ok in Hnew as [_ Hnew].
    destruct (filtered_out_listed _ _ Hids Hskip) as (sid & i & Hsid & -> & Hi).
    eapply Forall_impl; [exact Hnew|]. intros f Hf. cbn beta in Hf.
    rewrite Hsid in Hf. injection Hf as Hf. by exists i.
Qed.

(** X16.  With a filter, every feed [select_feeds] returns belongs to a
    source whose [id] is a text of the filter. *)
Theorem select_feeds_filter (catalog : json) (max_sources feeds_per_source : Z)
    (source_ids : list string) (feeds : list feed) :
  source_ids <> [] ->
  select_feeds catalog max_sources feeds_per_source source_ids = Ok feeds ->
  Forall (fun f => exists i, feed_source_id f = JStr i /\ i ∈ source_ids) feeds.
Proof.
  intros Hids. unfold select_feeds.
  destruct (py_get catalog "sources") as [v|]; [|done]. step.
  destruct (py_iter _) as [sources|]; [|done]. step.
  by apply select_loop_listed.
Qed.

Lemma select_loop_filter_first (max_sources feeds_per_source : Z)
    (source_ids : list string) (srcs : list dict) :
  source_ids <> [] ->
  forall selected feeds,
    select_loop max_sources feeds_per_source source_ids (map JDict srcs)
      selected feeds
    = select_loop max_sources feeds_per_source []
        (map JDict (List.filter (listed source_ids) srcs)) selected feeds.
Proof.
  intros Hids. induction srcs as [|src srcs IH]; intros selected feeds; [done|].
  cbn [map List.filter select_loop].
  assert (filtered_out source_ids (JDict src)
          = Ok (negb (listed source_ids src))) as ->.
  { by destruct source_ids. }
  step. destruct (listed source_ids src); cbn [negb]; [|apply IH].
  cbn [map select_loop filtered_out]. step.
  destruct (max_sources <=? selected); [done|].
  destruct (py_get (JDict src) "feeds") as [feed_list|]; [|done]. step.
  destruct (py_slice_to _ _) as [part|]; [|done]. step.
  destruct (py_iter part) as [fs|]; [|done]. step.
  destruct (selected_feeds (JDict src) fs) as [new|]; [|done]. step.
  apply IH.
Qed.

(** X17.  The filter is applied before the sources are counted: on a
    catalog whose sources are objects, [select_feeds] with a filter returns
    what it returns without one on the catalog of the sources the filter
    lets through, so that sources outside the filter do not use up
    [max_sources]. *)
Theorem select_feeds_filter_first (c : dict) (srcs : list dict)
    (max_sources feeds_per_source : Z) (source_ids : list string) :
  source_ids <> [] ->
  dict_get "sources" JNull c = JList (map JDict srcs) ->
  select_feeds (JDict c) max_sources feeds_per_source source_ids
  = select_feeds
      (JDict [("sources", JList (map JDict (List.filter (listed source_ids) srcs)))])
      max_sources feeds_per_source [].
Proof.
  intros Hids Hsrcs. unfold select_feeds. cbn [py_get]. step.
  rewrite Hsrcs.
  change (dict_get "sources" JNull [("sources", ?v)]) with v.
  assert (forall l, py_iter (py_or (JList l) (JList [])) = Ok l) as Hiter
    by (by intros [|? ?]).
  rewrite !Hiter. step. by apply select_loop_filter_first.
Qed.

(** ** The further properties on the example data *)

Lemma main_without_summary_witness :
  main repr_ascii example_digest example_html example_html example_args_skip
    (example_environment example_reply) [example_feed]
  = Ok {| schema_version := "1.0";
          generated_at := env_now (example_environment example_reply);
          catalog_path := catalog example_args_skip;
          request := (max_sources example_args_skip,
                      feeds_per_source example_args_skip,
                      max_items_per_feed example_args_skip,
                      source_ids example_args_skip);
          openai := None;
          output_items :=
            items (collect repr_ascii example_digest example_html example_html
                     example_args_skip (example_environment example_reply)
                     [example_feed]);
          output_errors :=
            errors (collect repr_ascii example_digest example_html example_html
                      example_args_skip (example_environment example_reply)
                      [example_feed]) |}.
Proof.
  apply (main_without_summary repr_ascii example_digest example_html
           example_html example_args_skip (example_environment example_reply)
           [example_feed]).
  - discriminate.
  - left. reflexivity.
Defined.

Lemma augment_failures_witness :
  (AttributeError = AttributeError \/ AttributeError = TypeError)
  /\ ~ exists entries, readable_reply example_bad_reply entries.
Proof.
  apply (augment_failures example_bad_reply example_items AttributeError).
  vm_compute. reflexivity.
Defined.

Lemma select_feeds_bounds_witness :
  Z.of_nat (length example_selected) <= Z.max 0 1 * 1
  /\ (1 <= 0 -> example_selected = []).
Proof.
  apply (select_feeds_bounds example_catalog 1 1 ["npr"] example_selected).
  - lia.
  - vm_compute. reflexivity.
Defined.

Lemma select_feeds_filter_witness :
  Forall (fun f => exists i, feed_source_id f = JStr i /\ i ∈ ["npr"])
         example_selected.
Proof.
  apply (select_feeds_filter example_catalog 1 1 ["npr"] example_selected).
  - discriminate.
  - vm_compute. reflexivity.
Defined.

Lemma select_feeds_filter_first_witness :
  select_feeds example_catalog 1 1 ["npr"]
  = select_feeds
      (JDict [("sources",
               JList (map JDict (List.filter (listed ["npr"]) example_sources)))])
      1 1 [].
Proof.
  apply (select_feeds_filter_first
           [("sources", JList (map JDict example_sources))] example_sources
           1 1 ["npr"]).
  - discriminate.
  - reflexivity.
Defined.

End DigestMore.

(** ** More on the credentials: [read_env_file], [load_env_value] *)

Module EnvFileMore.
Import Py EnvFile.

(** X18.  In a file that is read to its end without a fault,
    [read_env_file] returns the value of the first line that gives one to
    the key: the lines before it that give none are passed over, and no
    line after it changes the result, not even a later line for the same
    key. *)
Theorem read_env_first_match (key_name : string) (before : list string)
    (line : string) (after : list string) (v : string) :
  Forall (fun l => env_line key_name l = None) before ->
  env_line key_name line = Some v ->
  read_env_file (Readable (before ++ line :: after) Eof) key_name
  = Ok (Some v).
Proof.
  intros Hbefore Hline. cbn [read_env_file].
  induction Hbefore as [|l before Hl _ IH]; cbn [app read_env_lines].
  - by rewrite Hline.
  - by rewrite Hl.
Qed.

Lemma read_env_lines_none (key_name : string) (lines : list string)
    (ending : read_end) :
  Forall (fun l => env_line key_name l = None) lines ->
  read_env_lines key_name lines ending = read_env_lines key_name [] ending.
Proof.
  induction 1 as [|l lines Hl _ IH]; [done|]. cbn [read_env_lines].
  by rewrite Hl.
Qed.

Lemma read_env_lines_inv (key_name : string) (lines : list string)
    (ending : read_end) :
  (exists v, read_env_lines key_name lines ending = Ok (Some v))
  \/ (Forall (fun l => env_line key_name l = None) lines
      /\ read_env_lines key_name lines ending
         = read_env_lines key_name [] ending).
Proof.
  induction lines as [|l lines IH]; [by right|]. cbn [read_env_lines].
  destruct (env_line key_name l) as [v|] eqn:Hl; [left; by exists v|].
  destruct IH as [?|[Hall Hr]]; [by left|].
  right. split; [by constructor|done].
Qed.

(** X19.  A file in which no line gives the key a value yields no value when
    it ends or when reading it raises [OSError]; bytes that are not UTF-8
    raise [UnicodeDecodeError], which [read_env_file] does not catch. *)
Theorem read_env_no_match (key_name : string) (lines : list string)
    (ending : read_end) :
  Forall (fun l => env_line key_name l = None) lines ->
  read_env_file (Readable lines ending) key_name
  = match ending with
    | DecodeError => Raise UnicodeDecodeError
    | Eof | OsError => Ok None
    end.
Proof.
  intros Hall. cbn [read_env_file]. rewrite read_env_lines_none by done.
  by destruct ending.
Qed.

Lemma load_from_files_inv (key_name : string) (files : list env_path)
    (v : string) :
  load_from_files key_name files = Ok (Some v) ->
  v <> ""
  /\ exists i f,
       files !! i = Some f /\ read_env_file f key_name = Ok (Some v)
       /\ forall j f', (j < i)%nat -> files !! j = Some f' ->
            exists r, read_env_file f' key_name = Ok r /\ default "" r = "".
Proof.
  induction files as [|f files IH]; [done|]. cbn [load_from_files].
  destruct (read_env_file f key_name) as [r|] eqn:Hr; [|done].
  cbn [mbind result_bind]. case_bool_decide as Hempty.
  - intros (Hv & i & f' & Hi & Hf' & Hbefore)%IH. split; [done|].
    exists (S i), f'. split; [done|]. split; [done|].
    intros [|j] f'' Hj Hf''.
    + injection Hf'' as <-. by exists r.
    + apply (Hbefore j); [lia|done].
  - intros [= ->]. split; [done|]. exists 0%nat, f. split; [done|].
    split; [done|]. intros j f' Hj. lia.
Qed.

(** X20.  A value [load_env_value] returns is never empty, and it is the
    variable of the process environment when that is set and not empty;
    otherwise it is the value of the first candidate file that holds a value
    that is not empty, every file before it having been read without one. *)
Theorem load_env_value_precedence (key_name : string) (environ : option string)
    (files : list env_path) (v : string) :
  load_env_value key_name environ files = Ok (Some v) ->
  v <> ""
  /\ (default "" environ <> "" -> environ = Some v)
  /\ (default "" environ = "" ->
      exists i f,
        files !! i = Some f /\ read_env_file f key_name = Ok (Some v)
        /\ forall j f', (j < i)%nat -> files !! j = Some f' ->
             exists r, read_env_file f' key_name = Ok r /\ default "" r = "").
Proof.
  unfold load_env_value. case_bool_decide as Hempty.
  - intros [Hv Hfile]%load_from_files_inv. by split.
  - intros [= ->]. split; [done|]. by split.
Qed.

Lemma load_from_files_raises (key_name : string) (files : list env_path)
    (e : exn) :
  load_from_files key_name files = Raise e ->
  e = UnicodeDecodeError
  /\ exists lines,
       Readable lines DecodeError ∈ files
       /\ Forall (fun l => env_line key_name l = None) lines.
Proof.
  induction files as [|f files IH]; [done|]. cbn [load_from_files].
  destruct (read_env_file f key_name) as [r|e'] eqn:Hr; cbn [mbind result_bind].
  - case_bool_decide; [|done].
    intros (-> & lines & Hin & Hall)%IH. split; [done|].
    exists lines. split; [by apply list_elem_of_further|done].
  - intros [= ->]. destruct f as [|lines ending]; [done|].
    cbn [read_env_file] in Hr.
    destruct (read_env_lines_inv key_name lines ending)
      as [[v Hv]|[Hall Hnone]]; [congruence|].
    rewrite Hnone in Hr. destruct ending; try done. injection Hr as <-.
    split; [done|]. exists lines. split; [apply list_elem_of_here|done].
Qed.

(** X21.  [load_env_value], and with it [load_api_key], fails in one way
    only: with [UnicodeDecodeError], when the environment gives no value and
    a candidate file that is not UTF-8 holds no line for the key before the
    bad bytes. *)
Theorem load_env_value_failure (key_name : string) (environ : option string)
    (files : list env_path) (e : exn) :
  load_env_value key_name environ files = Raise e ->
  e = UnicodeDecodeError
  /\ default "" environ = ""
  /\ exists lines,
       Readable lines DecodeError ∈ files
       /\ Forall (fun l => env_line key_name l = None) lines.
Proof.
  unfold load_env_value. case_bool_decide as Hempty; [|done].
  intros [-> Hfile]%load_from_files_raises. by split.
Qed.

(** ** The properties on the example file *)

Lemma read_env_first_match_witness :
  read_env_file
    (Readable (["# credentials"; ""; "export PATH"; "OPENAI_MODEL = gpt-4o "]
               ++ " NEWSDATA_API_KEY = 'pub_123' " :: ["NEWSDATA_API_KEY=second"])
              Eof)
    "NEWSDATA_API_KEY"
  = Ok (Some "pub_123").
Proof.
  apply (read_env_first_match "NEWSDATA_API_KEY"
           ["# credentials"; ""; "export PATH"; "OPENAI_MODEL = gpt-4o "]
           " NEWSDATA_API_KEY = 'pub_123' " ["NEWSDATA_API_KEY=second"]
           "pub_123").
  - repeat constructor.
  - vm_compute. reflexivity.
Defined.

Lemma read_env_no_match_witness :
  read_env_file (Readable example_env_lines DecodeError) "OPENAI_API_KEY"
  = Raise UnicodeDecodeError.
Proof.
  apply (read_env_no_match "OPENAI_API_KEY" example_env_lines DecodeError).
  repeat constructor.
Defined.

Lemma load_env_value_precedence_witness :
  "pub_123" <> ""
  /\ (default "" None <> "" -> None = Some "pub_123")
  /\ (default "" None = "" ->
      exists i f,
        [Readable ["NEWSDATA_API_KEY="] Eof; Readable example_env_lines Eof] !! i
        = Some f
        /\ read_env_file f "NEWSDATA_API_KEY" = Ok (Some "pub_123")
        /\ forall j f', (j < i)%nat ->
             [Readable ["NEWSDATA_API_KEY="] Eof; Readable example_env_lines Eof] !! j
             = Some f' ->
             exists r, read_env_file f' "NEWSDATA_API_KEY" = Ok r
                       /\ default "" r = "").
Proof.
  apply (load_env_value_precedence "NEWSDATA_API_KEY" None
           [Readable ["NEWSDATA_API_KEY="] Eof; Readable example_env_lines Eof]
           "pub_123").
  vm_compute. reflexivity.
Defined.

Lemma load_env_value_failure_witness :
  UnicodeDecodeError = UnicodeDecodeError
  /\ default "" (Some "") = ""
  /\ exists lines,
       Readable lines DecodeError
         ∈ [Absent; Readable example_env_lines DecodeError]
       /\ Forall (fun l => env_line "OPENAI_API_KEY" l = None) lines.
Proof.
  apply (load_env_value_failure "OPENAI_API_KEY" (Some "")
           [Absent; Readable example_env_lines DecodeError] UnicodeDecodeError).
  vm_compute. reflexivity.
Defined.

End EnvFileMore.

(** ** More on the client: how a run fails, and what the next run reads *)

Module NewsdataRun.
Import Py PyFacts NewsdataClient NewsdataExamples NewsdataProps NewsdataMore.

Section Merge.
Variable repr_str : string -> string.

Local Abbreviation article_key := (article_key repr_str).
Local Abbreviation record_key := (record_key repr_str).
Local Abbreviation seed_keys := (seed_keys repr_str).
Local Abbreviation merge_step := (merge_step repr_str).
Local Abbreviation merge := (merge repr_str).

Lemma article_key_raises (x : json) (e : exn) :
  article_key x = Raise e -> e = AttributeError.
Proof.
  destruct x as [| | | | | |d];
    try (rewrite article_key_not_record by (by intros []); congruence).
  by rewrite article_key_record.
Qed.

Lemma seed_loop_raises (l : list json) (e : exn) :
  forall keys : gset string,
    for_each (fun keys item => key ← article_key item; Ok ({[key]} ∪ keys))
      keys l = Raise e ->
    e = AttributeError.
Proof.
  induction l as [|x l IH]; intros keys; [done|]. cbn [for_each].
  destruct (article_key x) as [k|e'] eqn:Hk; step.
  - apply IH.
  - intros [= <-]. by eapply article_key_raises.
Qed.

Lemma merge_step_cases (a : args) (t : string) (st : merge_state) (x : json)
    (l : list json) :
  dict_lookup "articles" (dump st) = Some (JList l) ->
  merge_step a t st x = Raise AttributeError
  \/ exists st' l',
       merge_step a t st x = Ok st'
       /\ dict_lookup "articles" (dump st') = Some (JList l').
Proof.
  intros Hl. destruct x as [| | | | | |d]; try by left.
  right. destruct (decide (record_key d ∈ existing_keys st)) as [Hin|Hout].
  - rewrite merge_step_seen by done. by eexists _, _.
  - rewrite (merge_step_new _ a t st d l) by done. eexists _, _.
    split; [done|]. cbn [dump]. apply dict_lookup_set_eq.
Qed.

Lemma merge_loop_raises (a : args) (t : string) (items : list json) (e : exn) :
  forall (st : merge_state) (l : list json),
    dict_lookup "articles" (dump st) = Some (JList l) ->
    for_each (merge_step a t) st items = Raise e ->
    e = AttributeError.
Proof.
  induction items as [|x items IH]; intros st l Hl; [done|]. cbn [for_each].
  destruct (merge_step_cases a t st x l Hl) as [->|(st' & l' & -> & Hl')].
  - by intros [= <-].
  - by apply (IH st' l').
Qed.

(** Only the elements and the length of the results matter to [merge]. *)
Lemma merge_iter (a : args) (response : dict) (results : json) (t : string)
    (d : dict) (items : list json) :
  py_iter results = Ok items ->
  merge a response results t d = merge a response (JList items) t d.
Proof.
  intros Hit. unfold NewsdataClient.merge.
  destruct (py_iter (dict_get "articles" (JList []) d)); [|done]. step.
  destruct (NewsdataClient.seed_keys _ _); [|done]. step.
  rewrite Hit. cbn [py_iter]. step.
  destruct (for_each _ _ items); [|done]. step.
  assert (py_len results = py_len (JList items)) as ->; [|done].
  destruct results; try done; injection Hit as <-; cbn [py_len];
    by rewrite ?length_map.
Qed.

(** X22.  The merge into a store that [load_dump] returned fails in two
    ways only, and never with [KeyError]: with [AttributeError] when an
    element of the stored articles or of the results is no object, and with
    [TypeError] when the results cannot be iterated, the stored articles
    being objects. *)
Theorem merge_failures (a : args) (response : dict) (results : json)
    (t : string) (d : dict) (e : exn) :
  loaded_store d ->
  merge a response results t d = Raise e ->
  (e = AttributeError
   /\ (~ Forall is_record (articles_of d)
       \/ exists items,
            py_iter results = Ok items /\ ~ Forall is_record items))
  \/ (e = TypeError /\ py_iter results = Raise TypeError
      /\ Forall is_record (articles_of d)).
Proof.
  intros Hd Hrun. destruct (loaded_store_inv d Hd) as [Ha _].
  pose proof Hrun as Hrun'. unfold NewsdataClient.merge, dict_get in Hrun'.
  rewrite Ha in Hrun'. cbn [default from_option id py_iter] in Hrun'.
  step_in Hrun'.
  destruct (NewsdataClient.seed_keys _ (articles_of d)) as [keys|e'] eqn:Hseed;
    step_in Hrun'; cycle 1.
  { injection Hrun' as <-. left. split; [by eapply seed_loop_raises|].
    left. intros [r Hr]%(seed_keys_ok repr_str). congruence. }
  assert (Forall is_record (articles_of d)) as Harts
    by (apply (seed_keys_ok repr_str); by eexists).
  destruct (py_iter results) as [items|e'] eqn:Hit; step_in Hrun'; cycle 1.
  { injection Hrun' as <-. right.
    destruct results; cbn [py_iter] in Hit; try done; by injection Hit as <-. }
  left. destruct (for_each _ _ items) as [st|e'] eqn:Hloop; step_in Hrun'.
  - exfalso.
    assert (is_ok (merge a response (JList items) t d)) as [r Hr].
    { apply merge_ok_iff; [done|]. split; [done|].
      eapply (merge_loop_ok_inv repr_str). by eexists. }
    rewrite (merge_iter _ _ _ _ _ _ Hit) in Hrun. congruence.
  - injection Hrun' as <-. split.
    { eapply merge_loop_raises; [|exact Hloop]. exact Ha. }
    right. exists items. split; [done|].
    intros [recs ->]%Forall_is_record.
    destruct (merge_loop repr_str a t recs
                {| dump := d; existing_keys := keys; added := 0; skipped := 0 |}
                (articles_of d) Ha) as (st' & Hst' & _).
    congruence.
Qed.

End Merge.

Section Run.
Variable repr_str : string -> string.
Variable json_loads : string -> option json.
Variable json_dumps : json -> string.

Local Abbreviation load_dump := (load_dump json_loads).
Local Abbreviation save_dump := (save_dump json_dumps).
Local Abbreviation merge := (merge repr_str).
Local Abbreviation main_run := (main_run repr_str json_loads json_dumps).

Lemma load_dump_version (path : string) (f : file_state) (d : dict) :
  load_dump path f = Ok d -> is_Some (dict_lookup "schema_version" d).
Proof.
  destruct f as [| | |text]; try done.
  - by intros [= <-].
  - intros Hload. destruct (decide (py_strip text = "")) as [Hs|Hs].
    + unfold NewsdataClient.load_dump in Hload.
      rewrite decide_True in Hload by done. by injection Hload as <-.
    + destruct (json_loads (py_strip text)) as [[]|] eqn:Hj;
        try (unfold NewsdataClient.load_dump in Hload;
             rewrite decide_False, Hj in Hload by done; done).
      * unfold NewsdataClient.load_dump in Hload.
        rewrite decide_False, Hj in Hload by done. by injection Hload as <-.
      * destruct (load_dump_object repr_str json_loads path text d0 Hs Hj)
          as (d' & Hd' & Hv & _).
        rewrite Hd' in Hload. injection Hload as <-. by rewrite Hv.
Qed.

(** X23.  What a run saves, the next run loads back unchanged: the store
    that [load_dump] returned and the merge updated has the four fields, so
    that [load_dump] neither adds nor replaces anything in it, provided
    [json.loads] reads back what [json.dumps] wrote. *)
Theorem saved_store_reloads (a : args) (response : dict) (results : list json)
    (t path path' : string) (f : file_state) (d d' : dict) (n s : Z) :
  load_dump path f = Ok d ->
  merge a response (JList results) t d = Ok (d', n, s) ->
  py_strip (json_dumps (JDict d') +:+ "
") <> "" ->
  json_loads (py_strip (json_dumps (JDict d') +:+ "
")) = Some (JDict d') ->
  load_dump path' (save_dump d') = Ok d'.
Proof.
  intros Hload Hrun Hne Hloads.
  pose proof (load_dump_valid repr_str json_loads _ _ _ Hload) as Hd.
  destruct (load_dump_version _ _ _ Hload) as [ver Hver].
  destruct (merge_inv repr_str _ _ _ _ _ _ _ _ Hd Hrun)
    as (arts & items & Harts & -> & _ & _ & _ & _ & Hup & Hframe).
  destruct (merge_loaded repr_str a response t d arts items Hd Harts)
    as (d'' & Hrun' & Hd' & _).
  rewrite Hrun in Hrun'. injection Hrun' as <- _ _.
  destruct (loaded_store_inv _ Hd') as [Ha Hr].
  unfold NewsdataClient.save_dump, NewsdataClient.load_dump.
  rewrite decide_False by done. rewrite Hloads.
  rewrite (dict_setdefault_present "schema_version" _ ver)
    by (by rewrite Hframe).
  rewrite (dict_setdefault_present "updated_at" _ _ _ Hup).
  rewrite (dict_setdefault_present "articles" _ _ _ Ha).
  rewrite (dict_setdefault_present "requests" _ _ _ Hr).
  unfold dict_get. rewrite Ha. cbn [default from_option id is_list].
  by rewrite Hr.
Qed.

End Run.

(** ** The properties on the example runs *)

Lemma merge_failures_witness :
  (TypeError = AttributeError
   /\ (~ Forall is_record (articles_of example_store)
       \/ exists items,
            py_iter (JInt 5) = Ok items /\ ~ Forall is_record items))
  \/ (TypeError = TypeError /\ py_iter (JInt 5) = Raise TypeError
      /\ Forall is_record (articles_of example_store)).
Proof.
  apply (merge_failures repr_ascii example_args example_response (JInt 5)
           "2026-01-05T08:00:00Z" example_store TypeError).
  - exact example_store_loaded.
  - vm_compute. reflexivity.
Defined.

Lemma saved_store_reloads_witness :
  load_dump example_reloads "data/newsdata_dump.json"
    (save_dump example_dumps example_merged)
  = Ok example_merged.
Proof.
  apply (saved_store_reloads repr_ascii example_reloads example_dumps
           example_args example_response
           [JDict example_item_42; JDict example_item_43]
           "2026-01-05T08:00:00Z" "data/newsdata_dump.json"
           "data/newsdata_dump.json" (Content "<stored>") example_store
           example_merged 1 1).
  - vm_compute. reflexivity.
  - vm_compute. reflexivity.
  - vm_compute. discriminate.
  - vm_compute. reflexivity.
Defined.

End NewsdataRun.
